(** * QConvert: the conversion worker and the bulk controller

    A shallow embedding of [QConvert.py]: the command line that
    [ConversionThread.run] hands to pandoc, the signals it emits around
    the external process, and the jobs that
    [FileConverter.convert_bulk_files] creates while walking a directory.

    Conventions.
    - A Python [str] is a [string] holding the UTF-8 encoding of the text;
      a Python [bytes] is a [list byte].  Decoding valid UTF-8 therefore
      keeps the byte sequence, and fails on anything else.
    - [str.lower] and [repr] are modelled on the ASCII range; bytes above
      127 are left as they are.
    - Paths follow [posixpath]. *)

From Stdlib Require Import List String Ascii ZArith NArith Lia Bool.
From Stdlib Require Import Strings.Byte.
From Stdlib Require Import DecimalString.
Import ListNotations.
Open Scope string_scope.

(** ** Python string primitives *)

Module Py.

(** [s.endswith(suffix)] *)
Fixpoint endswith (s suffix : string) : bool :=
  if (s =? suffix)%string then true
  else match s with
       | EmptyString => false
       | String _ s' => endswith s' suffix
       end.

(** [s.startswith(p)] *)
Fixpoint startswith (s p : string) {struct p} : bool :=
  match p with
  | EmptyString => true
  | String b p' =>
      match s with
      | EmptyString => false
      | String a s' => (a =? b)%char && startswith s' p'
      end
  end.

Definition lower_ascii (c : ascii) : ascii :=
  let n := nat_of_ascii c in
  if (65 <=? n)%nat && (n <=? 90)%nat then ascii_of_nat (n + 32) else c.

(** [s.lower()] *)
Fixpoint lower (s : string) : string :=
  match s with
  | EmptyString => EmptyString
  | String c s' => String (lower_ascii c) (lower s')
  end.

(** [s.split(sep)] for a one-character separator: never the empty list. *)
Fixpoint split (sep : ascii) (s : string) : list string :=
  match s with
  | EmptyString => [EmptyString]
  | String c s' =>
      if (c =? sep)%char then EmptyString :: split sep s'
      else match split sep s' with
           | h :: t => String c h :: t
           | [] => [String c EmptyString]
           end
  end.

(** [sep.join(parts)] *)
Definition join (sep : string) (parts : list string) : string :=
  String.concat sep parts.

(** [l[:-1]] *)
Definition drop_last {A} (l : list A) : list A := removelast l.

(** [l.insert(i, x)] for [i >= 0]; an index past the end appends. *)
Definition insert {A} (i : nat) (x : A) (l : list A) : list A :=
  (firstn i l ++ x :: skipn i l)%list.

(** ["%d" % n] *)
Definition str_of_Z (n : Z) : string := NilZero.string_of_int (Z.to_int n).

Definition str_of_nat (n : nat) : string := str_of_Z (Z.of_nat n).

Definition hex_digit (n : N) : ascii :=
  if (n <? 10)%N then ascii_of_N (48 + n) else ascii_of_N (87 + n).

(** ["%02x" % b] for a byte *)
Definition hex2 (b : byte) : string :=
  let n := Byte.to_N b in
  String (hex_digit (n / 16)) (String (hex_digit (n mod 16)) EmptyString).

Fixpoint contains (c : ascii) (s : string) : bool :=
  match s with
  | EmptyString => false
  | String a s' => (a =? c)%char || contains c s'
  end.

Definition squote : ascii := "'"%char.
Definition dquote : ascii := ascii_of_nat 34.
Definition backslash : ascii := "\"%char.

Definition repr_char (quote c : ascii) : string :=
  let n := nat_of_ascii c in
  if (c =? quote)%char || (c =? backslash)%char
  then String backslash (String c EmptyString)
  else if (n =? 9)%nat then String backslash "t"
  else if (n =? 10)%nat then String backslash "n"
  else if (n =? 13)%nat then String backslash "r"
  else if (n <? 32)%nat || (n =? 127)%nat
  then String backslash ("x" ++ hex2 (byte_of_ascii c))
  else String c EmptyString.

Fixpoint repr_body (quote : ascii) (s : string) : string :=
  match s with
  | EmptyString => EmptyString
  | String c s' => repr_char quote c ++ repr_body quote s'
  end.

(** [repr(s)] for a [str]: single quotes unless the text has a single
    quote and no double quote. *)
Definition repr_str (s : string) : string :=
  let quote := if contains squote s && negb (contains dquote s)
               then dquote else squote in
  String quote (repr_body quote s ++ String quote EmptyString).

(** [str(l)] for a list of [str] *)
Definition str_of_list (l : list string) : string :=
  "[" ++ join ", " (map repr_str l) ++ "]".

End Py.

(** ** posixpath *)

Module os_path.

Definition sep : string := "/".

(** [os.path.join(a, b)] *)
Definition join (a b : string) : string :=
  if Py.startswith b sep then b
  else if (a =? "")%string || Py.endswith a sep then a ++ b
  else a ++ sep ++ b.

End os_path.

(** ** Exceptions and their messages *)

Inductive exn : Type :=
| CalledProcessError (returncode : Z) (cmd : list string) (output : list byte)
| OSError (errno : Z) (strerror : string) (filename : option string)
| UnicodeDecodeError (object : list byte) (start stop : nat) (reason : string).

(** ** The UTF-8 codec, [bytes.decode()] *)

Module utf8.

Definition is_cont (b : N) : bool := ((128 <=? b) && (b <? 192))%N.

Definition invalid_start : string := "invalid start byte".
Definition invalid_cont : string := "invalid continuation byte".
Definition truncated : string := "unexpected end of data".

(** [scan i l] checks the bytes [l] that start at offset [i]; on a
    malformed sequence it gives the offending range and the reason. *)
Fixpoint scan (i : nat) (l : list N) {struct l} : option (nat * nat * string) :=
  match l with
  | [] => None
  | ch :: t =>
      if (ch <? 128)%N then scan (S i) t
      else if (ch <? 224)%N then
        if (ch <? 194)%N then Some (i, S i, invalid_start)
        else match t with
             | [] => Some (i, S i, truncated)
             | ch2 :: t2 =>
                 if negb (is_cont ch2) then Some (i, S i, invalid_cont)
                 else scan (2 + i) t2
             end
      else if (ch <? 240)%N then
        match t with
        | [] => Some (i, S i, truncated)
        | ch2 :: t2 =>
            if negb (is_cont ch2)
               || (if (ch2 <? 160)%N then (ch =? 224)%N else (ch =? 237)%N)
            then Some (i, S i, invalid_cont)
            else match t2 with
                 | [] => Some (i, 2 + i, truncated)
                 | ch3 :: t3 =>
                     if negb (is_cont ch3) then Some (i, 2 + i, invalid_cont)
                     else scan (3 + i) t3
                 end
        end
      else if (ch <? 245)%N then
        match t with
        | [] => Some (i, S i, truncated)
        | ch2 :: t2 =>
            if negb (is_cont ch2)
               || (if (ch2 <? 144)%N then (ch =? 240)%N else (ch =? 244)%N)
            then Some (i, S i, invalid_cont)
            else match t2 with
                 | [] => Some (i, 2 + i, truncated)
                 | ch3 :: t3 =>
                     if negb (is_cont ch3) then Some (i, 2 + i, invalid_cont)
                     else match t3 with
                          | [] => Some (i, 3 + i, truncated)
                          | ch4 :: t4 =>
                              if negb (is_cont ch4)
                              then Some (i, 3 + i, invalid_cont)
                              else scan (4 + i) t4
                          end
                 end
        end
      else Some (i, S i, invalid_start)
  end.

(** [b.decode()] with the default codec and [errors='strict'] *)
Definition decode (b : list byte) : exn + string :=
  match scan 0 (map Byte.to_N b) with
  | None => inr (string_of_list_byte b)
  | Some (start, stop, reason) => inl (UnicodeDecodeError b start stop reason)
  end.

End utf8.

(** ** [str(e)] *)

Section ExceptionText.

(** The platform's signal enumeration: [Signals n] is the name of the
    member [signal.Signals(n)], or [None] where the call raises
    [ValueError]. *)
Variable Signals : Z -> option string.

(** [CalledProcessError.__str__] *)
Definition str_CalledProcessError (returncode : Z) (cmd : list string) : string :=
  if negb (returncode =? 0)%Z && (returncode <? 0)%Z then
    match Signals (- returncode) with
    | Some name =>
        "Command '" ++ Py.str_of_list cmd ++ "' died with <Signals." ++ name
          ++ ": " ++ Py.str_of_Z (- returncode) ++ ">."
    | None =>
        "Command '" ++ Py.str_of_list cmd ++ "' died with unknown signal "
          ++ Py.str_of_Z (- returncode) ++ "."
    end
  else
    "Command '" ++ Py.str_of_list cmd ++ "' returned non-zero exit status "
      ++ Py.str_of_Z returncode ++ ".".

(** [OSError.__str__] when [errno] and [strerror] are set *)
Definition str_OSError (errno : Z) (strerror : string)
    (filename : option string) : string :=
  match filename with
  | Some f => "[Errno " ++ Py.str_of_Z errno ++ "] " ++ strerror ++ ": "
                ++ Py.repr_str f
  | None => "[Errno " ++ Py.str_of_Z errno ++ "] " ++ strerror
  end.

(** [UnicodeDecodeError.__str__] for the utf-8 codec *)
Definition str_UnicodeDecodeError (object : list byte) (start stop : nat)
    (reason : string) : string :=
  if (start <? List.length object)%nat && (stop =? S start)%nat then
    "'utf-8' codec can't decode byte 0x"
      ++ Py.hex2 (nth start object x00) ++ " in position "
      ++ Py.str_of_nat start ++ ": " ++ reason
  else
    "'utf-8' codec can't decode bytes in position "
      ++ Py.str_of_nat start ++ "-" ++ Py.str_of_nat (stop - 1) ++ ": " ++ reason.

Definition str (e : exn) : string :=
  match e with
  | CalledProcessError rc cmd _ => str_CalledProcessError rc cmd
  | OSError en se fn => str_OSError en se fn
  | UnicodeDecodeError o a b r => str_UnicodeDecodeError o a b r
  end.

End ExceptionText.

(** ** Signals, actions and the worker's monad *)

(** The four signals of [ConversionThread]. *)
Inductive signal : Type :=
| progress (value : Z)
| finished (ok : bool)
| error (message : string)
| output (text : string).

(** What the worker does to the outside, in order. *)
Inductive action : Type :=
| Popen (command : list string)
| Communicate
| Emit (s : signal).

(** A computation leaves a trace of actions and either raises or returns. *)
Definition M (A : Type) : Type := (list action * (exn + A))%type.

Definition ret {A} (a : A) : M A := ([], inr a).

Definition raise {A} (e : exn) : M A := ([], inl e).

Definition bind {A B} (m : M A) (f : A -> M B) : M B :=
  match m with
  | (t, inl e) => (t, inl e)
  | (t, inr a) => let (t', r) := f a in ((t ++ t')%list, r)
  end.

(** [try: body  except Exception as e: handler(e)] *)
Definition try_except {A} (body : M A) (handler : exn -> M A) : M A :=
  match body with
  | (t, inl e) => let (t', r) := handler e in ((t ++ t')%list, r)
  | (t, inr a) => (t, inr a)
  end.

Definition emit (s : signal) : M unit := ([Emit s], inr tt).

Definition lift {A} (r : exn + A) : M A := ([], r).

Notation "x <- m ;; k" := (bind m (fun x => k))
  (at level 61, m at next level, right associativity).
Notation "m ;;; k" := (bind m (fun _ => k))
  (at level 61, right associativity).

Definition trace {A} (m : M A) : list action := fst m.
Definition result {A} (m : M A) : exn + A := snd m.

(** ** The external process *)

(** How the operating system answers [subprocess.Popen(command, ...)]:
    the launch fails with an [OSError], or the process runs and
    [communicate()] later gives its exit status and both streams. *)
Inductive process_behaviour : Type :=
| LaunchFails (errno : Z) (strerror : string) (filename : option string)
| Runs (returncode : Z) (stdout stderr : list byte).

Record process : Type := mkProcess {
  returncode : Z;
  p_stdout : list byte;
  p_stderr : list byte
}.

Definition subprocess_Popen (w : process_behaviour) (command : list string)
    : M process :=
  match w with
  | LaunchFails en se fn => ([Popen command], inl (OSError en se fn))
  | Runs rc so se => ([Popen command], inr (mkProcess rc so se))
  end.

Definition communicate (p : process) : M (list byte * list byte) :=
  ([Communicate], inr (p_stdout p, p_stderr p)).

(** ** ConversionThread *)

Record ConversionThread : Type := mkConversionThread {
  input_file : string;
  output_file : string;
  input_format : string;
  output_format : string;
  pdf_engine : string
}.

(** The [command] list of [run], after the conditional insert. *)
Definition command (self : ConversionThread) : list string :=
  let command := ["pandoc"; "-f"; input_format self; "-t"; output_format self;
                  "-o"; output_file self; input_file self] in
  if (output_format self =? "pdf")%string
  then Py.insert 1 ("--pdf-engine=" ++ pdf_engine self) command
  else command.

Section Run.

Variable Signals : Z -> option string.

(** [ConversionThread.run] *)
Definition run (self : ConversionThread) (w : process_behaviour) : M unit :=
  try_except
    (let command := command self in
     process <- subprocess_Popen w command ;;
     emit (progress 50) ;;;
     streams <- communicate process ;;
     (if negb (returncode process =? 0)%Z
      then raise (CalledProcessError (returncode process) command (snd streams))
      else ret tt) ;;;
     emit (progress 100) ;;;
     text <- lift (utf8.decode (fst streams)) ;;
     emit (output text) ;;;
     emit (finished true))
    (fun e =>
     emit (error (str Signals e)) ;;;
     emit (finished false)).

End Run.

(** The signals of a trace, in order. *)
Definition signals (t : list action) : list signal :=
  flat_map (fun a => match a with Emit s => [s] | _ => [] end) t.

(** ** The directory tree and [os.walk] *)

#[local] Set Warnings "-register-all".

(** A directory holds file names and named sub-directories, each in the
    order the operating system lists them. *)
Inductive dirtree : Type :=
| Dir (files : list string) (subdirs : list (string * dirtree)).

Module os.

(** [os.walk(top)], top-down: the triple of a directory comes before the
    triples of its sub-directories. *)
Fixpoint walk (top : string) (d : dirtree)
    : list (string * list string * list string) :=
  match d with
  | Dir files subdirs =>
      (top, map fst subdirs, files)
        :: (fix walk_subdirs (l : list (string * dirtree)) :=
              match l with
              | [] => []
              | (name, sub) :: l' =>
                  (walk (os_path.join top name) sub ++ walk_subdirs l')%list
              end) subdirs
  end.

End os.

(** ** FileConverter *)

Module FileConverter.

Definition SUPPORTED_INPUT_FORMATS : list string :=
  ["epub"; "docx"; "md"; "html"; "txt"].
Definition SUPPORTED_OUTPUT_FORMATS : list string :=
  ["pdf"; "docx"; "html"; "md"; "txt"].
Definition SUPPORTED_PDF_ENGINES : list string :=
  ["pdflatex"; "xelatex"; "lualatex"].

(** The fields of the window that [convert_bulk_files] reads.  The
    attribute [input_directory] exists only once a directory was chosen;
    the two combo boxes are given by their current text. *)
Record t : Type := mk {
  pdf_engine : string;
  bulk_conversion : bool;
  input_directory : option string;
  input_format_combo : string;
  output_format_combo : string
}.

(** What the controller does, in order. *)
Inductive ui_action : Type :=
| Warning (title text : string)
| SetValue (value : Z)
| Start (thread : ConversionThread)
| Wait (thread : ConversionThread).

(** The body of the inner loop for one [file] of one [root]. *)
Definition convert_one (self : t) (input_format output_format root file : string)
    : list ui_action :=
  if Py.endswith (Py.lower file) ("." ++ input_format) then
    let input_file := os_path.join root file in
    let parsed_input_file := Py.drop_last (Py.split "." input_file) in
    let joined_input_file := Py.join "." parsed_input_file in
    let output_file :=
      os_path.join root (joined_input_file ++ "." ++ output_format) in
    let thread := mkConversionThread input_file output_file input_format
                    output_format (pdf_engine self) in
    [Start thread; Wait thread]
  else [].

(** [FileConverter.convert_bulk_files], over the tree [fs] found at
    [self.input_directory]. *)
Definition convert_bulk_files (fs : dirtree) (self : t) : list ui_action :=
  match input_directory self with
  | None => [Warning "Error" "Please select a file to convert."]
  | Some dir =>
      if (dir =? "")%string
      then [Warning "Error" "Please select a file to convert."]
      else
        let input_format := input_format_combo self in
        let output_format := output_format_combo self in
        (SetValue 0
           :: flat_map
                (fun entry : string * list string * list string =>
                   let '(root, _, files) := entry in
                   flat_map (convert_one self input_format output_format root)
                     files)
                (os.walk dir fs)
           ++ [SetValue 100])%list
  end.

(** The threads started by a run of the controller, in order. *)
Definition started (l : list ui_action) : list ConversionThread :=
  flat_map (fun a => match a with Start th => [th] | _ => [] end) l.

End FileConverter.

(** The files that [os.walk] reaches, each with the directory it is
    listed in, in the order of the walk. *)
Definition walk_files (top : string) (fs : dirtree) : list (string * string) :=
  flat_map (fun entry : string * list string * list string =>
              map (pair (fst (fst entry))) (snd entry))
           (os.walk top fs).

(** ** More string primitives, for the window *)

Module PyStr.

(** [str(b)] for a [bool] *)
Definition str_of_bool (b : bool) : string := if b then "True" else "False".

(** The one-character string of a line feed. *)
Definition newline : string := String (ascii_of_nat 10) EmptyString.

(** The one-character string of a double quote. *)
Definition quote : string := String Py.dquote EmptyString.

(** [s[:i]] for [i >= 0] *)
Fixpoint slice_to (i : nat) (s : string) : string :=
  match i, s with
  | S i', String c s' => String c (slice_to i' s')
  | _, _ => EmptyString
  end.

(** [s[i:]] for [i >= 0] *)
Fixpoint slice_from (i : nat) (s : string) : string :=
  match i, s with
  | S i', String _ s' => slice_from i' s'
  | _, _ => s
  end.

(** [s.rfind(c)] for a one-character [c], scanning from the left:
    [i] is the index of the head of [s], [found] the last hit so far. *)
Fixpoint rfind_from (c : ascii) (s : string) (i found : Z) : Z :=
  match s with
  | EmptyString => found
  | String a s' =>
      rfind_from c s' (i + 1) (if (a =? c)%char then i else found)
  end.

Definition rfind (c : ascii) (s : string) : Z := rfind_from c s 0 (-1).

(** [x in l] for a list of [str] *)
Definition mem (x : string) (l : list string) : bool :=
  existsb (String.eqb x) l.

End PyStr.

Module posixpath.

(** [os.path.basename(p)] *)
Definition basename (p : string) : string :=
  let i := (PyStr.rfind "/" p + 1)%Z in
  PyStr.slice_from (Z.to_nat i) p.

(** The [while] loop of [genericpath._splitext]: is there, among the
    [steps] characters from [filenameIndex] on, one that is not a dot? *)
Fixpoint name_before_dot (p : string) (filenameIndex steps : nat) : bool :=
  match steps with
  | O => false
  | S k =>
      if negb (substring filenameIndex 1 p =? ".")%string then true
      else name_before_dot p (S filenameIndex) k
  end.

(** [os.path.splitext(p)] *)
Definition splitext (p : string) : string * string :=
  let sepIndex := PyStr.rfind "/" p in
  let dotIndex := PyStr.rfind "." p in
  if (sepIndex <? dotIndex)%Z
     && name_before_dot p (Z.to_nat (sepIndex + 1))
          (Z.to_nat (dotIndex - (sepIndex + 1)))
  then (PyStr.slice_to (Z.to_nat dotIndex) p,
        PyStr.slice_from (Z.to_nat dotIndex) p)
  else (p, EmptyString).

End posixpath.

(** ** Installation checks *)

(** What can escape from the installation checks: an exception of the
    worker's kinds, or the [KeyError] of a missing environment variable. *)
Inductive fault : Type :=
| Raised (e : exn)
| KeyError (key : string).

(** [subprocess.run(command, check=True, stdout=PIPE, stderr=PIPE)] *)
Definition subprocess_run (w : process_behaviour) (command : list string)
    : M process :=
  process <- subprocess_Popen w command ;;
  streams <- communicate process ;;
  if negb (returncode process =? 0)%Z
  then raise (CalledProcessError (returncode process) command (fst streams))
  else ret process.

(** [isinstance(e, (subprocess.CalledProcessError, FileNotFoundError))]:
    an [OSError] is a [FileNotFoundError] exactly when its [errno] is
    [ENOENT]. *)
Definition ENOENT : Z := 2.

Definition caught_by_check (e : exn) : bool :=
  match e with
  | CalledProcessError _ _ _ => true
  | OSError errno _ _ => (errno =? ENOENT)%Z
  | UnicodeDecodeError _ _ _ _ => false
  end.

Section Checks.

Variable Signals : Z -> option string.

(** The value of [os.environ] at ["PATH"], when the variable is set. *)
Variable PATH : option string.

(** A check leaves the commands it ran and the lines it printed, and
    returns a [bool] or lets a fault escape. *)
Definition check : Type := (list action * list string * (fault + bool))%type.

(** [FileConverter.check_pdflatex_installed] *)
Definition check_pdflatex_installed (w : process_behaviour) : check :=
  let attempt := subprocess_run w ["pdflatex"; "--version"] in
  match result attempt with
  | inr r =>
      match utf8.decode (p_stdout r) with
      | inr text =>
          (trace attempt, ["pdflatex version check output: " ++ text], inr true)
      | inl e => (trace attempt, [], inl (Raised e))
      end
  | inl e =>
      if caught_by_check e then
        match PATH with
        | Some path =>
            (trace attempt,
             ["Error checking pdflatex version: " ++ str Signals e;
              "System PATH: " ++ path], inr false)
        | None =>
            (trace attempt,
             ["Error checking pdflatex version: " ++ str Signals e],
             inl (KeyError "PATH"))
        end
      else (trace attempt, [], inl (Raised e))
  end.

(** [FileConverter.check_pandoc_installed] *)
Definition check_pandoc_installed (w : process_behaviour) : check :=
  let attempt := subprocess_run w ["pandoc"; "--version"] in
  match result attempt with
  | inr r =>
      match utf8.decode (p_stdout r) with
      | inr text =>
          (trace attempt, ["Pandoc version check output: " ++ text], inr true)
      | inl e => (trace attempt, [], inl (Raised e))
      end
  | inl e =>
      if caught_by_check e then
        match PATH with
        | Some path =>
            (trace attempt,
             ["Error checking Pandoc version: " ++ str Signals e;
              "System PATH: " ++ path], inr false)
        | None =>
            (trace attempt,
             ["Error checking Pandoc version: " ++ str Signals e],
             inl (KeyError "PATH"))
        end
      else (trace attempt, [], inl (Raised e))
  end.

(** How [initUI] ends. *)
Inductive startup : Type :=
| Opened
| Exited (title : string) (code : Z)
| Crashed (f : fault).

(** The end of [FileConverter.initUI]: the two checks, the notice and
    [sys.exit(1)].  The result comes with the commands that were run. *)
Definition initUI_checks (pandoc pdflatex : process_behaviour)
    : list action * startup :=
  let '(ran, _, pandoc_ok) := check_pandoc_installed pandoc in
  match pandoc_ok with
  | inl f => (ran, Crashed f)
  | inr false => (ran, Exited "Pandoc Not Installed" 1)
  | inr true =>
      let '(ran', _, pdflatex_ok) := check_pdflatex_installed pdflatex in
      match pdflatex_ok with
      | inl f => ((ran ++ ran')%list, Crashed f)
      | inr false => ((ran ++ ran')%list, Exited "pdflatex Not Installed" 1)
      | inr true => ((ran ++ ran')%list, Opened)
      end
  end.

End Checks.

(** ** A [str] on its way through a signal *)

Module Qt.

(** The UTF-8 bytes of U+FEFF, the byte order mark, and of U+FFFE, the
    mark read in the other byte order. *)
Definition BOM : string :=
  String (ascii_of_nat 239) (String (ascii_of_nat 187)
    (String (ascii_of_nat 191) EmptyString)).

Definition swapped_BOM : string :=
  String (ascii_of_nat 239) (String (ascii_of_nat 191)
    (String (ascii_of_nat 190) EmptyString)).

Section Conversion.

(** What arrives for a text that starts with U+FFFE, which the
    conversion takes for a mark of the other byte order. *)
Variable reversed : string -> string.

(** The argument of a [Signal(str)] is turned into a [QString] and back
    before the slot gets it: a leading byte order mark is consumed, and
    any other text arrives as it was emitted. *)
Definition through_QString (text : string) : string :=
  if Py.startswith text BOM then PyStr.slice_from 3 text
  else if Py.startswith text swapped_BOM then reversed text
  else text.

End Conversion.

End Qt.

(** ** The window: state, slots and events *)

Module Window.

Inductive icon : Type := Warning | Information | Critical.

(** What the user sees or what is started, in order. *)
Inductive effect : Type :=
| MessageBox (i : icon) (title text : string)
| Print (line : string)
| SaveFileName (caption suggested filter : string)
| Start (thread : ConversionThread)
| Wait (thread : ConversionThread).

(** The attributes and widget contents that the slots read or write.
    [input_file] and [input_directory] are attributes that exist only
    after the first selection in the respective mode. *)
Record state : Type := mkState {
  pdf_engine : string;
  bulk_conversion : bool;
  input_file : option string;
  input_directory : option string;
  file_label : string;
  select_file_button : string;
  input_format_combo : string;
  output_format_combo : string;
  progress_bar : Z;
  output_text : list string;
  output_visible : bool;
  thread : option ConversionThread
}.

Definition set_engine (v : string) (s : state) : state :=
  mkState v (bulk_conversion s) (input_file s) (input_directory s)
    (file_label s) (select_file_button s) (input_format_combo s)
    (output_format_combo s) (progress_bar s) (output_text s)
    (output_visible s) (thread s).

Definition set_bulk (v : bool) (s : state) : state :=
  mkState (pdf_engine s) v (input_file s) (input_directory s)
    (file_label s) (select_file_button s) (input_format_combo s)
    (output_format_combo s) (progress_bar s) (output_text s)
    (output_visible s) (thread s).

Definition set_input_file (v : option string) (s : state) : state :=
  mkState (pdf_engine s) (bulk_conversion s) v (input_directory s)
    (file_label s) (select_file_button s) (input_format_combo s)
    (output_format_combo s) (progress_bar s) (output_text s)
    (output_visible s) (thread s).

Definition set_input_directory (v : option string) (s : state) : state :=
  mkState (pdf_engine s) (bulk_conversion s) (input_file s) v
    (file_label s) (select_file_button s) (input_format_combo s)
    (output_format_combo s) (progress_bar s) (output_text s)
    (output_visible s) (thread s).

Definition set_label (v : string) (s : state) : state :=
  mkState (pdf_engine s) (bulk_conversion s) (input_file s) (input_directory s)
    v (select_file_button s) (input_format_combo s)
    (output_format_combo s) (progress_bar s) (output_text s)
    (output_visible s) (thread s).

Definition set_button (v : string) (s : state) : state :=
  mkState (pdf_engine s) (bulk_conversion s) (input_file s) (input_directory s)
    (file_label s) v (input_format_combo s)
    (output_format_combo s) (progress_bar s) (output_text s)
    (output_visible s) (thread s).

Definition set_input_format (v : string) (s : state) : state :=
  mkState (pdf_engine s) (bulk_conversion s) (input_file s) (input_directory s)
    (file_label s) (select_file_button s) v
    (output_format_combo s) (progress_bar s) (output_text s)
    (output_visible s) (thread s).

Definition set_output_format (v : string) (s : state) : state :=
  mkState (pdf_engine s) (bulk_conversion s) (input_file s) (input_directory s)
    (file_label s) (select_file_button s) (input_format_combo s)
    v (progress_bar s) (output_text s)
    (output_visible s) (thread s).

Definition set_progress (v : Z) (s : state) : state :=
  mkState (pdf_engine s) (bulk_conversion s) (input_file s) (input_directory s)
    (file_label s) (select_file_button s) (input_format_combo s)
    (output_format_combo s) v (output_text s)
    (output_visible s) (thread s).

Definition set_output_text (v : list string) (s : state) : state :=
  mkState (pdf_engine s) (bulk_conversion s) (input_file s) (input_directory s)
    (file_label s) (select_file_button s) (input_format_combo s)
    (output_format_combo s) (progress_bar s) v
    (output_visible s) (thread s).

Definition set_output_visible (v : bool) (s : state) : state :=
  mkState (pdf_engine s) (bulk_conversion s) (input_file s) (input_directory s)
    (file_label s) (select_file_button s) (input_format_combo s)
    (output_format_combo s) (progress_bar s) (output_text s)
    v (thread s).

Definition set_thread (v : option ConversionThread) (s : state) : state :=
  mkState (pdf_engine s) (bulk_conversion s) (input_file s) (input_directory s)
    (file_label s) (select_file_button s) (input_format_combo s)
    (output_format_combo s) (progress_bar s) (output_text s)
    (output_visible s) v.

(** The window after [__init__] and [initUI]: each combo box shows its
    first item. *)
Definition init : state :=
  mkState "xelatex" false None None "No file selected" "Select File"
    "epub" "pdf" 0 [] false None.

(** The part of the state that [convert_bulk_files] reads. *)
Definition controller (self : state) : FileConverter.t :=
  FileConverter.mk (pdf_engine self) (bulk_conversion self)
    (input_directory self) (input_format_combo self)
    (output_format_combo self).

(** [FileConverter.set_pdf_engine] *)
Definition set_pdf_engine (self : state) (engine : string)
    : state * list effect :=
  let self := set_engine engine self in
  (self, [Print ("Selected PDF engine: " ++ pdf_engine self)]).

(** [FileConverter.toggle_bulk_conversion] *)
Definition toggle_bulk_conversion (self : state) (checked : bool)
    : state * list effect :=
  let self := set_bulk checked self in
  let self :=
    if (select_file_button self =? "Select File")%string
    then set_button "Select Folder" self
    else set_button "Select File" self in
  (self, [Print ("Bulk conversion: "
                 ++ PyStr.str_of_bool (bulk_conversion self))]).

(** [FileConverter.toggle_display_output] *)
Definition toggle_display_output (self : state) (checked : bool)
    : state * list effect :=
  (set_output_visible checked self,
   [Print ("Display terminal output: " ++ PyStr.str_of_bool checked)]).

Section Detection.

(** [mimetypes.guess_type(path)[0]]: the type found in the tables of the
    platform, if any. *)
Variable guess_type : string -> option string.

(** [FileConverter.detect_file_type]; only called once [input_file] is
    set, so the missing attribute is treated like the empty path. *)
Definition detect_file_type (self : state) : state * list effect :=
  let path := match input_file self with Some f => f | None => "" end in
  match guess_type path with
  | Some (String _ _) =>
      let file_extension :=
        Py.lower (PyStr.slice_from 1 (snd (posixpath.splitext path))) in
      if PyStr.mem file_extension FileConverter.SUPPORTED_INPUT_FORMATS
      then (set_input_format file_extension self, [])
      else (self, [MessageBox Warning "Unsupported File"
                     "The selected file type is not supported."])
  | _ =>
      (self, [MessageBox Warning "File Type Detection Failed"
                "Could not detect the file type."])
  end.

(** [FileConverter.select_file]; [answer] is what the dialog returns,
    empty when it was cancelled. *)
Definition select_file (self : state) (answer : string)
    : state * list effect :=
  if bulk_conversion self then
    let self := set_input_directory (Some answer) self in
    if negb (answer =? "")%string
    then (set_label answer self, [])
    else (set_label "No directory selected" self, [])
  else
    let self := set_input_file (Some answer) self in
    if negb (answer =? "")%string
    then detect_file_type (set_label (posixpath.basename answer) self)
    else (set_label "No file selected" self, []).

End Detection.

(** [FileConverter.convert_single_file]; [answer] is the path that the
    save dialog returns, empty when it was cancelled. *)
Definition convert_single_file (self : state) (answer : string)
    : state * list effect :=
  match input_file self with
  | None | Some EmptyString =>
      (self, [MessageBox Warning "Error" "Please select a file to convert."])
  | Some file =>
      let parsed_input_file := Py.drop_last (Py.split "." file) in
      let joined_input_file := Py.join "." parsed_input_file in
      let input_format := input_format_combo self in
      let output_format := output_format_combo self in
      let asked :=
        SaveFileName "Save File" (joined_input_file ++ "." ++ output_format)
          ("*." ++ output_format) in
      if (answer =? "")%string then
        (self, [asked;
                MessageBox Warning "Error" "Please specify an output file."])
      else
        let th := mkConversionThread file answer input_format output_format
                    (pdf_engine self) in
        (set_thread (Some th) (set_progress 0 self), [asked; Start th])
  end.

(** One action of the bulk controller, carried out on the window. *)
Definition perform (self : state) (a : FileConverter.ui_action)
    : state * list effect :=
  match a with
  | FileConverter.Warning title text =>
      (self, [MessageBox Warning title text])
  | FileConverter.SetValue v => (set_progress v self, [])
  | FileConverter.Start th => (set_thread (Some th) self, [Start th])
  | FileConverter.Wait th => (self, [Wait th])
  end.

Fixpoint perform_all (self : state) (l : list FileConverter.ui_action)
    : state * list effect :=
  match l with
  | [] => (self, [])
  | a :: l' =>
      let (self1, out1) := perform self a in
      let (self2, out2) := perform_all self1 l' in
      (self2, (out1 ++ out2)%list)
  end.

(** [FileConverter.convert_bulk_files] on the window, over the tree
    [fs] found at the chosen directory. *)
Definition convert_bulk_files (fs : dirtree) (self : state)
    : state * list effect :=
  perform_all self (FileConverter.convert_bulk_files fs (controller self)).

(** [FileConverter.convert_file] *)
Definition convert_file (fs : dirtree) (self : state) (answer : string)
    : state * list effect :=
  if bulk_conversion self then convert_bulk_files fs self
  else convert_single_file self answer.

(** [FileConverter.update_progress] *)
Definition update_progress (self : state) (value : Z) : state * list effect :=
  (set_progress value self, []).

(** [FileConverter.on_conversion_finished] *)
Definition on_conversion_finished (self : state) (success : bool)
    : state * list effect :=
  (set_progress 0 self,
   [if success
    then MessageBox Information "Conversion Complete"
           "File converted successfully."
    else MessageBox Critical "Conversion Failed"
           "An error occurred during conversion."]).

(** [FileConverter.on_conversion_error] *)
Definition on_conversion_error (self : state) (error_message : string)
    : state * list effect :=
  (self,
   [MessageBox Critical "Conversion Error"
      ("An error occurred during conversion:" ++ PyStr.newline
       ++ error_message)]).

(** [FileConverter.append_output] *)
Definition append_output (self : state) (output_message : string)
    : state * list effect :=
  (set_output_text (output_text self ++ [output_message])%list self, []).

Section Delivery.

Variable reversed : string -> string.

(** The slot that each signal of a thread is connected to, run on the
    value that arrives. *)
Definition deliver (self : state) (s : signal) : state * list effect :=
  match s with
  | progress value => update_progress self value
  | finished success => on_conversion_finished self success
  | error message =>
      on_conversion_error self (Qt.through_QString reversed message)
  | output text => append_output self (Qt.through_QString reversed text)
  end.

(** The slots run in the order in which the signals were emitted. *)
Fixpoint deliver_all (self : state) (l : list signal) : state * list effect :=
  match l with
  | [] => (self, [])
  | s :: l' =>
      let (self1, out1) := deliver self s in
      let (self2, out2) := deliver_all self1 l' in
      (self2, (out1 ++ out2)%list)
  end.

End Delivery.

(** What the user or a worker can make happen. *)
Inductive event : Type :=
| TriggerEngine (engine : string)
| TriggerBulk (checked : bool)
| TriggerDisplay (checked : bool)
| ClickSelect (answer : string)
| PickOutputFormat (format : string)
| ClickConvert (fs : dirtree) (answer : string)
| Signal (s : signal).

(** The menu has one entry per supported engine and the output combo box
    one item per supported output format; the input combo box is
    disabled; the bulk entry of the menu is checkable, so each click
    passes the opposite of its last state, which [bulk_conversion]
    mirrors. *)
Definition possible (self : state) (e : event) : Prop :=
  match e with
  | TriggerEngine engine => In engine FileConverter.SUPPORTED_PDF_ENGINES
  | PickOutputFormat format => In format FileConverter.SUPPORTED_OUTPUT_FORMATS
  | TriggerBulk checked => checked = negb (bulk_conversion self)
  | _ => True
  end.

Section Events.

Variable guess_type : string -> option string.
Variable reversed : string -> string.

Definition step (self : state) (e : event) : state * list effect :=
  match e with
  | TriggerEngine engine => set_pdf_engine self engine
  | TriggerBulk checked => toggle_bulk_conversion self checked
  | TriggerDisplay checked => toggle_display_output self checked
  | ClickSelect answer => select_file guess_type self answer
  | PickOutputFormat format => (set_output_format format self, [])
  | ClickConvert fs answer => convert_file fs self answer
  | Signal s => deliver reversed self s
  end.

Fixpoint steps (self : state) (l : list event) : state * list effect :=
  match l with
  | [] => (self, [])
  | e :: l' =>
      let (self1, out1) := step self e in
      let (self2, out2) := steps self1 l' in
      (self2, (out1 ++ out2)%list)
  end.

(** The states of the window that a session can reach. *)
Inductive reachable : state -> Prop :=
| reach_init : reachable init
| reach_step (self : state) (e : event) :
    reachable self -> possible self e -> reachable (fst (step self e)).

End Events.

(** The threads started among some effects, in order. *)
Definition started (l : list effect) : list ConversionThread :=
  flat_map (fun a => match a with Start th => [th] | _ => [] end) l.

End Window.

(** ** Vocabulary of the properties *)

(** The test of the inner loop: the lower-cased name ends in a dot and
    the input format. *)
Definition selected (input_format file : string) : bool :=
  Py.endswith (Py.lower file) ("." ++ input_format).

(** An argument that carries the engine choice. *)
Definition is_engine_flag (arg : string) : bool :=
  Py.startswith arg "--pdf-engine=".

(** [converts self (root, file) th]: [th] is the job for [file] of
    directory [root]: it reads that file and writes, into the same
    directory, the name with its extension replaced by the output format. *)
Definition converts (self : FileConverter.t) (entry : string * string)
    (th : ConversionThread) : Prop :=
  let (root, file) := entry in
  exists stem ext,
    file = stem ++ "." ++ ext /\
    Py.lower ext = FileConverter.input_format_combo self /\
    th = mkConversionThread
           (os_path.join root file)
           (os_path.join root
              (stem ++ "." ++ FileConverter.output_format_combo self))
           (FileConverter.input_format_combo self)
           (FileConverter.output_format_combo self)
           (FileConverter.pdf_engine self).

(** The two nested loops of [convert_bulk_files], over the triples that
    the walk yields. *)
Definition bulk_loop (self : FileConverter.t)
    (entries : list (string * list string * list string))
    : list FileConverter.ui_action :=
  flat_map
    (fun entry : string * list string * list string =>
       let '(root, _, files) := entry in
       flat_map (FileConverter.convert_one self
                   (FileConverter.input_format_combo self)
                   (FileConverter.output_format_combo self) root) files)
    entries.

(** Definitions that follow the wording of the description rather than
    the code, to compare the two. *)
Module Spec.

(** The argument vector as the interface description orders it: source
    format, target format, engine (for pdf), output path, input path. *)
Definition command_shape (self : ConversionThread) : list string :=
  (["pandoc"; "-f"; input_format self; "-t"; output_format self]
   ++ (if (output_format self =? "pdf")%string
       then [("--pdf-engine=" ++ pdf_engine self)%string] else [])
   ++ ["-o"; output_file self; input_file self])%list.

(** Suffix selection as the description words it: the name itself ends
    in a dot and the input format. *)
Definition name_has_suffix (input_format file : string) : bool :=
  Py.endswith file ("." ++ input_format).

End Spec.

(** ** Sample inputs *)

Module Sample.

(** A platform without named signals. *)
Definition no_signals : Z -> option string := fun _ => None.

Definition md_to_html : ConversionThread :=
  mkConversionThread "/d/a.md" "/d/a.html" "md" "html" "xelatex".

Definition md_to_pdf : ConversionThread :=
  mkConversionThread "/d/a.md" "/d/a.pdf" "md" "pdf" "xelatex".

(** The bytes of [b'boom'] and of [b'ok']. *)
Definition boom : list byte := [x62; x6f; x6f; x6d].
Definition ok : list byte := [x6f; x6b].

(** A window in bulk mode over [/d], converting md to html. *)
Definition window : FileConverter.t :=
  FileConverter.mk "xelatex" true (Some "/d") "md" "html".

(** The directory of the description's example. *)
Definition abc : dirtree := Dir ["a.md"; "b.md"; "c.txt"] [].

(** A directory with one upper-case name. *)
Definition upper : dirtree := Dir ["A.MD"] [].

End Sample.

(** [same_settings s s']: the settings that conversions are built from,
    and the caption of the selection button, are the same in both. *)
Definition same_settings (s s' : Window.state) : Prop :=
  Window.pdf_engine s' = Window.pdf_engine s
  /\ Window.bulk_conversion s' = Window.bulk_conversion s
  /\ Window.select_file_button s' = Window.select_file_button s
  /\ Window.input_format_combo s' = Window.input_format_combo s
  /\ Window.output_format_combo s' = Window.output_format_combo s.

(** [answers_version w]: the tool ran to a zero exit status and printed
    valid UTF-8. *)
Definition answers_version (w : process_behaviour) : Prop :=
  exists out err text, w = Runs 0 out err /\ utf8.decode out = inr text.

(** [fails_version w]: the tool is not there, or it ran to a non-zero
    exit status. *)
Definition fails_version (w : process_behaviour) : Prop :=
  (exists strerror filename, w = LaunchFails ENOENT strerror filename)
  \/ (exists rc out err, w = Runs rc out err /\ rc <> 0%Z).



Module Demo.

(** Tables that know every path as markdown. *)
Definition markdown (path : string) : option string := Some "text/markdown".

(** A conversion that leaves a text with a reversed mark alone. *)
Definition as_it_is (text : string) : string := text.

(** The window after a click on the bulk entry of the menu. *)
Definition bulk_window : Window.state :=
  fst (Window.toggle_bulk_conversion Window.init true).

(** The window after [/d/Notes.MD] was selected. *)
Definition notes_window : Window.state :=
  fst (Window.select_file markdown Window.init "/d/Notes.MD").

Definition missing : process_behaviour :=
  LaunchFails 2 "No such file or directory" (Some "pandoc").

Definition denied : process_behaviour :=
  LaunchFails 13 "Permission denied" (Some "pandoc").

(** The bytes of a byte order mark followed by [ok]. *)
Definition marked_ok : list byte := [xef; xbb; xbf; x6f; x6b].

End Demo.

(** ** Tactics *)

(** Case analysis on what is known about a process. *)
Ltac break_behaviour :=
  repeat match goal with
         | H : _ /\ _ |- _ => destruct H
         | H : exists _, _ |- _ => destruct H
         | H : _ \/ _ |- _ => destruct H
         | H : LaunchFails _ _ _ = LaunchFails _ _ _ |- _ =>
             injection H as ? ? ?; subst
         | H : Runs _ _ _ = Runs _ _ _ |- _ => injection H as ? ? ?; subst
         | H : LaunchFails _ _ _ = Runs _ _ _ |- _ => discriminate H
         | H : Runs _ _ _ = LaunchFails _ _ _ |- _ => discriminate H
         end.

Ltac settle_answer :=
  unfold answers_version, fails_version, ENOENT;
  split; split; intros; break_behaviour;
  try discriminate; try congruence; try contradiction;
  try (split; [|discriminate]); eauto 8.

(** * Facts about the string primitives *)

Section StringFacts.

Local Open Scope string_scope.

Lemma append_assoc (a b c : string) : (a ++ b) ++ c = a ++ (b ++ c).
Proof.
  induction a as [|x a IH]; simpl; [reflexivity | now rewrite IH].
Qed.

Lemma append_empty_r (a : string) : a ++ "" = a.
Proof.
  induction a as [|x a IH]; simpl; [reflexivity | now rewrite IH].
Qed.

Lemma endswith_refl (s : string) : Py.endswith s s = true.
Proof.
  destruct s; simpl; [reflexivity | now rewrite Ascii.eqb_refl, String.eqb_refl].
Qed.

Lemma endswith_app (p suffix : string) : Py.endswith (p ++ suffix) suffix = true.
Proof.
  induction p as [|x p IH]; simpl.
  - apply endswith_refl.
  - destruct suffix as [|y suffix]; [exact IH|].
    destruct ((x =? y)%char); [|exact IH].
    destruct ((p ++ String y suffix =? suffix)%string); [reflexivity | exact IH].
Qed.

Lemma endswith_inv (s suffix : string) :
  Py.endswith s suffix = true -> exists p, s = p ++ suffix.
Proof.
  induction s as [|x s IH]; simpl.
  - destruct suffix; [exists ""; reflexivity | discriminate].
  - destruct suffix as [|y suffix].
    + intros H. destruct (IH H) as [p ->]. exists (String x p). reflexivity.
    + destruct ((x =? y)%char) eqn:Exy.
      * destruct ((s =? suffix)%string) eqn:Es.
        -- intros _. apply Ascii.eqb_eq in Exy. apply String.eqb_eq in Es.
           subst. exists "". reflexivity.
        -- intros H. destruct (IH H) as [p ->]. exists (String x p). reflexivity.
      * intros H. destruct (IH H) as [p ->]. exists (String x p). reflexivity.
Qed.

Lemma lower_app (a b : string) : Py.lower (a ++ b) = Py.lower a ++ Py.lower b.
Proof.
  induction a as [|x a IH]; simpl; [reflexivity | now rewrite IH].
Qed.

Lemma lower_app_inv (a b s : string) :
  Py.lower s = a ++ b ->
  exists a' b', s = a' ++ b' /\ Py.lower a' = a /\ Py.lower b' = b.
Proof.
  revert s. induction a as [|x a IH]; intros s H.
  - exists "", s. auto.
  - destruct s as [|y s]; [discriminate|].
    simpl in H. injection H as Hx Hs.
    destruct (IH s Hs) as (a' & b' & -> & Ha & Hb).
    exists (String y a'), b'. simpl. rewrite Ha, Hx. auto.
Qed.

Lemma lower_ascii_dot (c : ascii) :
  Py.lower_ascii c = "."%char <-> c = "."%char.
Proof.
  split; [|intros ->; reflexivity].
  destruct c as [[] [] [] [] [] [] [] []]; vm_compute; congruence.
Qed.

Lemma contains_dot_lower (s : string) :
  Py.contains "." (Py.lower s) = Py.contains "." s.
Proof.
  induction s as [|x s IH]; simpl; [reflexivity|].
  rewrite IH. f_equal.
  destruct ((x =? ".")%char) eqn:E.
  - apply Ascii.eqb_eq in E. subst. reflexivity.
  - apply Ascii.eqb_neq in E. apply Ascii.eqb_neq. intros H.
    apply E. exact (proj1 (lower_ascii_dot x) H).
Qed.

Lemma split_not_nil (sep : ascii) (s : string) : Py.split sep s <> [].
Proof.
  destruct s as [|x s]; simpl; [discriminate|].
  destruct ((x =? sep)%char); [discriminate|].
  destruct (Py.split sep s); discriminate.
Qed.

Lemma split_without_sep (sep : ascii) (s : string) :
  Py.contains sep s = false -> Py.split sep s = [s].
Proof.
  induction s as [|x s IH]; simpl; [reflexivity|].
  intros H. apply orb_false_iff in H as [Hx Hs].
  rewrite Hx, (IH Hs). reflexivity.
Qed.

Lemma split_app_last (sep : ascii) (x ext : string) :
  Py.contains sep ext = false ->
  Py.split sep (x ++ String sep ext) = (Py.split sep x ++ [ext])%list.
Proof.
  intros Hext. induction x as [|c x IH]; simpl.
  - rewrite Ascii.eqb_refl, (split_without_sep _ _ Hext). reflexivity.
  - destruct ((c =? sep)%char).
    + now rewrite IH.
    + rewrite IH. destruct (Py.split sep x) eqn:E; [|reflexivity].
      now apply split_not_nil in E.
Qed.

Lemma join_split (sep : ascii) (s : string) :
  Py.join (String sep "") (Py.split sep s) = s.
Proof.
  unfold Py.join. induction s as [|c s IH]; simpl; [reflexivity|].
  destruct ((c =? sep)%char) eqn:E.
  - apply Ascii.eqb_eq in E. subst c.
    destruct (Py.split sep s) eqn:Es; [now apply split_not_nil in Es|].
    simpl. f_equal. exact IH.
  - destruct (Py.split sep s) as [|h t] eqn:Es; [now apply split_not_nil in Es|].
    destruct t as [|h' t]; simpl in *; now rewrite <- IH.
Qed.

(** Dropping the last [.]-separated part and joining the rest removes a
    dot-free extension together with its dot. *)
Lemma strip_extension (x ext : string) :
  Py.contains "." ext = false ->
  Py.join "." (Py.drop_last (Py.split "." (x ++ "." ++ ext))) = x.
Proof.
  intros H. change (x ++ "." ++ ext) with (x ++ String "." ext).
  rewrite (split_app_last _ _ _ H). unfold Py.drop_last.
  rewrite removelast_last. apply (join_split ".").
Qed.

Lemma startswith_sep (s : string) :
  Py.startswith s os_path.sep = true <-> exists s', s = String "/" s'.
Proof.
  unfold os_path.sep. destruct s as [|c s]; simpl.
  - split; [discriminate | intros [s' H]; discriminate].
  - destruct (Ascii.eqb_spec c "/") as [->|Hc].
    + split; [intros _; now exists s | intros _; now destruct s].
    + split; [discriminate | intros [s' H]; congruence].
Qed.

Lemma startswith_sep_app (a b : string) :
  Py.startswith a os_path.sep = true ->
  Py.startswith (a ++ b) os_path.sep = true.
Proof.
  intros H. apply startswith_sep in H as [s' ->].
  apply startswith_sep. now exists (s' ++ b).
Qed.

Lemma join_absolute (a b : string) :
  Py.startswith a os_path.sep = true ->
  Py.startswith (os_path.join a b) os_path.sep = true.
Proof.
  intros H. unfold os_path.join.
  destruct (Py.startswith b os_path.sep) eqn:Hb; [exact Hb|].
  destruct ((a =? "")%string || Py.endswith a os_path.sep);
    now apply startswith_sep_app.
Qed.

End StringFacts.

(** * The worker: [ConversionThread.run] *)

Section RunFacts.

Variable Signals : Z -> option string.

Local Open Scope list_scope.

(** The four ways a run can go. *)

Lemma run_launch_fails (self : ConversionThread) errno strerror filename :
  run Signals self (LaunchFails errno strerror filename)
  = ([Popen (command self);
      Emit (error (str Signals (OSError errno strerror filename)));
      Emit (finished false)], inr tt).
Proof. reflexivity. Qed.

Lemma run_nonzero (self : ConversionThread) rc out err :
  rc <> 0%Z ->
  run Signals self (Runs rc out err)
  = ([Popen (command self); Emit (progress 50); Communicate;
      Emit (error (str Signals (CalledProcessError rc (command self) err)));
      Emit (finished false)], inr tt).
Proof.
  intros Hrc. apply Z.eqb_neq in Hrc.
  unfold run, try_except, bind; simpl. rewrite Hrc. reflexivity.
Qed.

Lemma run_zero_text (self : ConversionThread) out err text :
  utf8.decode out = inr text ->
  run Signals self (Runs 0 out err)
  = ([Popen (command self); Emit (progress 50); Communicate;
      Emit (progress 100); Emit (output text); Emit (finished true)], inr tt).
Proof.
  intros Hd. unfold run, try_except, bind, lift; simpl. rewrite Hd. reflexivity.
Qed.

Lemma run_zero_undecodable (self : ConversionThread) out err e :
  utf8.decode out = inl e ->
  run Signals self (Runs 0 out err)
  = ([Popen (command self); Emit (progress 50); Communicate;
      Emit (progress 100); Emit (error (str Signals e));
      Emit (finished false)], inr tt).
Proof.
  intros Hd. unfold run, try_except, bind, lift; simpl. rewrite Hd. reflexivity.
Qed.

(** Every run ends in exactly one of two ways: an [output] followed by
    [finished(True)], or an [error] followed by [finished(False)]. *)
Lemma run_signals_cases (self : ConversionThread) (w : process_behaviour) :
  (exists text,
     signals (trace (run Signals self w))
     = [progress 50; progress 100; output text; finished true])
  \/ (exists pre msg,
        signals (trace (run Signals self w))
        = pre ++ [error msg; finished false]
        /\ (forall s, In s pre -> exists v, s = progress v)).
Proof.
  destruct w as [en se fn | rc out err].
  - right. exists [], (str Signals (OSError en se fn)).
    rewrite run_launch_fails. split; [reflexivity | intros s []].
  - destruct (Z.eq_dec rc 0) as [-> | Hrc].
    + destruct (utf8.decode out) as [e | text] eqn:Hd.
      * right. exists [progress 50; progress 100], (str Signals e).
        rewrite (run_zero_undecodable _ _ _ _ Hd). split; [reflexivity|].
        intros s [<- | [<- | []]]; eauto.
      * left. exists text. now rewrite (run_zero_text _ _ _ _ Hd).
    + right. exists [progress 50],
        (str Signals (CalledProcessError rc (command self) err)).
      rewrite (run_nonzero _ _ _ _ Hrc). split; [reflexivity|].
      intros s [<- | []]; eauto.
Qed.

(** The text reported after a non-zero exit does not depend on what the
    process wrote to its standard error. *)
Lemma run_nonzero_ignores_stderr (self : ConversionThread) rc out err err' :
  rc <> 0%Z ->
  signals (trace (run Signals self (Runs rc out err)))
  = signals (trace (run Signals self (Runs rc out err'))).
Proof.
  intros Hrc. now rewrite !(run_nonzero _ _ _ _ Hrc).
Qed.

End RunFacts.

(** ** The command line *)

Lemma startswith_app (p s : string) : Py.startswith (p ++ s) p = true.
Proof.
  induction p as [|c p IH]; simpl; [reflexivity|].
  now rewrite Ascii.eqb_refl, IH.
Qed.

(** C2, as the description orders the arguments, fails: for pdf output
    the engine flag is not between the target format and [-o]. *)
Lemma command_shape_counterexample :
  command Sample.md_to_pdf <> Spec.command_shape Sample.md_to_pdf.
Proof. vm_compute. discriminate. Qed.

(** C2, amended: the argument vector is the tool name, then (exactly when
    the output format is pdf) the engine flag, then [-f] and the input
    format, [-t] and the output format, [-o] and the output path, and the
    input path last. *)
Theorem command_layout (self : ConversionThread) :
  command self
  = (["pandoc"]
     ++ (if (output_format self =? "pdf")%string
         then [("--pdf-engine=" ++ pdf_engine self)%string] else [])
     ++ ["-f"; input_format self; "-t"; output_format self;
         "-o"; output_file self; input_file self])%list.
Proof.
  unfold command. destruct (output_format self =? "pdf")%string; reflexivity.
Qed.

(** Without pdf output the code and the description agree. *)
Lemma command_shape_without_pdf (self : ConversionThread) :
  output_format self <> "pdf" -> command self = Spec.command_shape self.
Proof.
  intros H. apply String.eqb_neq in H.
  unfold command, Spec.command_shape. now rewrite H.
Qed.

(** C4: when no path and no format of the request is itself spelled like
    an engine flag, the command has an engine flag if and only if the
    output format is pdf, and the only such argument is
    [--pdf-engine=] followed by the request's engine. *)
Theorem pdf_engine_flag_iff (self : ConversionThread) :
  is_engine_flag (input_file self) = false ->
  is_engine_flag (output_file self) = false ->
  is_engine_flag (input_format self) = false ->
  is_engine_flag (output_format self) = false ->
  ((exists arg, In arg (command self) /\ is_engine_flag arg = true)
   <-> output_format self = "pdf")
  /\ (forall arg, In arg (command self) -> is_engine_flag arg = true ->
      arg = "--pdf-engine=" ++ pdf_engine self).
Proof.
  intros Hi Ho Hf Ht.
  assert (Hflag : is_engine_flag ("--pdf-engine=" ++ pdf_engine self) = true)
    by apply startswith_app.
  assert (Hrest : forall arg,
            In arg ["pandoc"; "-f"; input_format self; "-t";
                    output_format self; "-o"; output_file self;
                    input_file self] ->
            is_engine_flag arg = false).
  { intros arg H. simpl in H.
    repeat (destruct H as [<- | H]; [first [reflexivity | assumption]|]).
    destruct H. }
  unfold command.
  destruct (String.eqb_spec (output_format self) "pdf") as [Hpdf | Hpdf].
  - split.
    + split; [intros _; exact Hpdf | intros _].
      exists ("--pdf-engine=" ++ pdf_engine self). split; [|exact Hflag].
      right. left. reflexivity.
    + intros arg Hin Harg. unfold Py.insert in Hin. simpl in Hin.
      destruct Hin as [<- | [<- | Hin]]; [discriminate Harg | reflexivity |].
      rewrite (Hrest arg) in Harg; [discriminate | right; exact Hin].
  - split.
    + split; [|contradiction].
      intros (arg & Hin & Harg). rewrite (Hrest arg Hin) in Harg. discriminate.
    + intros arg Hin Harg. rewrite (Hrest arg Hin) in Harg. discriminate.
Qed.

Lemma pdf_engine_flag_iff_witness :
  ((exists arg, In arg (command Sample.md_to_pdf) /\ is_engine_flag arg = true)
   <-> output_format Sample.md_to_pdf = "pdf")
  /\ (forall arg, In arg (command Sample.md_to_pdf) ->
      is_engine_flag arg = true ->
      arg = "--pdf-engine=" ++ pdf_engine Sample.md_to_pdf).
Proof.
  apply (pdf_engine_flag_iff Sample.md_to_pdf); reflexivity.
Defined.

(** ** The outcome of a run *)

Lemma str_OSError_not_empty (Signals : Z -> option string) errno strerror filename :
  str Signals (OSError errno strerror filename) <> "".
Proof. destruct filename; discriminate. Qed.

(** C1, at a failing input: pandoc exits with status 1 after writing
    [boom] to its standard error.  The text sent with the [error] signal
    is the message of [CalledProcessError], which names the command and
    the status; the captured standard error, which decodes to [boom], is
    not in it. *)
Theorem nonzero_exit_reports_command_not_stderr (Signals : Z -> option string) :
  signals (trace (run Signals Sample.md_to_html (Runs 1 [] Sample.boom)))
  = [progress 50;
     error ("Command '['pandoc', '-f', 'md', '-t', 'html', '-o', "
            ++ "'/d/a.html', '/d/a.md']' returned non-zero exit status 1.");
     finished false]
  /\ utf8.decode Sample.boom = inr "boom"
  /\ ~ In (error "boom")
         (signals (trace (run Signals Sample.md_to_html
                            (Runs 1 [] Sample.boom)))).
Proof.
  assert (H : signals (trace (run Signals Sample.md_to_html
                                (Runs 1 [] Sample.boom)))
              = [progress 50;
                 error ("Command '['pandoc', '-f', 'md', '-t', 'html', '-o', "
                        ++ "'/d/a.html', '/d/a.md']' returned non-zero exit status 1.");
                 finished false])
    by reflexivity.
  split; [exact H|]. split; [reflexivity|].
  rewrite H. simpl. intros [E | [E | [E | []]]]; discriminate E.
Qed.

(** C5, as stated, fails: a process that exits with status 0 after
    writing the single byte [0xff] does not lead to [finished(True)]. *)
Lemma exit_zero_counterexample :
  ~ (forall (Signals : Z -> option string) self out err,
       In (finished true)
          (signals (trace (run Signals self (Runs 0 out err))))).
Proof.
  intros H.
  specialize (H Sample.no_signals Sample.md_to_html [xff] []).
  vm_compute in H.
  repeat (destruct H as [H | H]; [discriminate H|]). exact H.
Qed.

(** C5, amended: when the process exits with status 0 and its standard
    output is valid UTF-8, the run reports the maximum progress, sends the
    decoded standard output with the [output] signal and finishes with
    success. *)
Theorem exit_zero_outputs_stdout (Signals : Z -> option string)
    (self : ConversionThread) (out err : list byte) (text : string) :
  utf8.decode out = inr text ->
  result (run Signals self (Runs 0 out err)) = inr tt
  /\ signals (trace (run Signals self (Runs 0 out err)))
     = [progress 50; progress 100; output text; finished true].
Proof.
  intros Hd. now rewrite (run_zero_text _ _ _ _ _ Hd).
Qed.

Lemma exit_zero_outputs_stdout_witness :
  utf8.decode Sample.ok = inr "ok"
  /\ result (run Sample.no_signals Sample.md_to_html (Runs 0 Sample.ok []))
     = inr tt
  /\ signals (trace (run Sample.no_signals Sample.md_to_html
                       (Runs 0 Sample.ok [])))
     = [progress 50; progress 100; output "ok"; finished true].
Proof.
  split; [reflexivity|].
  apply (exit_zero_outputs_stdout Sample.no_signals Sample.md_to_html
           Sample.ok [] "ok").
  reflexivity.
Defined.

(** C7: when the process cannot be launched, the run returns normally
    (the exception does not escape), it sends the message of the launch
    exception, which is not empty, with the [error] signal and then
    [finished(False)]; a non-zero exit ends with the same two signals. *)
Theorem launch_failure_is_reported (Signals : Z -> option string)
    (self : ConversionThread) errno strerror filename :
  result (run Signals self (LaunchFails errno strerror filename)) = inr tt
  /\ signals (trace (run Signals self (LaunchFails errno strerror filename)))
     = [error (str Signals (OSError errno strerror filename)); finished false]
  /\ str Signals (OSError errno strerror filename) <> ""
  /\ (forall rc out err, rc <> 0%Z ->
      exists msg,
        result (run Signals self (Runs rc out err)) = inr tt
        /\ signals (trace (run Signals self (Runs rc out err)))
           = [progress 50; error msg; finished false]).
Proof.
  rewrite run_launch_fails.
  split; [reflexivity|]. split; [reflexivity|].
  split; [apply str_OSError_not_empty|].
  intros rc out err Hrc. rewrite (run_nonzero _ _ _ _ _ Hrc).
  eexists. split; reflexivity.
Qed.

Lemma launch_failure_is_reported_witness :
  signals (trace (run Sample.no_signals Sample.md_to_html
                    (LaunchFails 2 "No such file or directory" (Some "pandoc"))))
  = [error "[Errno 2] No such file or directory: 'pandoc'"; finished false]
  /\ exists msg,
       signals (trace (run Sample.no_signals Sample.md_to_html
                         (Runs 1 [] Sample.boom)))
       = [progress 50; error msg; finished false].
Proof.
  destruct (launch_failure_is_reported Sample.no_signals Sample.md_to_html
              2 "No such file or directory" (Some "pandoc"))
    as (_ & Hs & _ & Hnz).
  split; [exact Hs|].
  destruct (Hnz 1%Z [] Sample.boom ltac:(discriminate)) as (msg & _ & Hm).
  exists msg. exact Hm.
Defined.

(** C8: once the process is launched, [progress(50)] is the very next
    action, before the wait for the process; [progress(100)] is emitted
    when the exit status is zero and is not emitted when it is not. *)
Theorem progress_notifications (Signals : Z -> option string)
    (self : ConversionThread) (rc : Z) (out err : list byte) :
  (exists rest,
     trace (run Signals self (Runs rc out err))
     = Popen (command self) :: Emit (progress 50) :: Communicate :: rest)
  /\ (rc = 0%Z ->
      In (progress 100) (signals (trace (run Signals self (Runs rc out err)))))
  /\ (rc <> 0%Z ->
      ~ In (progress 100)
          (signals (trace (run Signals self (Runs rc out err))))).
Proof.
  destruct (Z.eq_dec rc 0) as [-> | Hrc].
  - destruct (utf8.decode out) as [e | text] eqn:Hd.
    + rewrite (run_zero_undecodable _ _ _ _ _ Hd).
      split; [eexists; reflexivity|]. split; [|contradiction].
      intros _. simpl. auto.
    + rewrite (run_zero_text _ _ _ _ _ Hd).
      split; [eexists; reflexivity|]. split; [|contradiction].
      intros _. simpl. auto.
  - rewrite (run_nonzero _ _ _ _ _ Hrc).
    split; [eexists; reflexivity|]. split; [contradiction|].
    intros _. simpl. intros [E | [E | [E | []]]]; discriminate E.
Qed.

Lemma progress_notifications_witness :
  In (progress 100)
     (signals (trace (run Sample.no_signals Sample.md_to_html
                        (Runs 0 Sample.ok []))))
  /\ ~ In (progress 100)
         (signals (trace (run Sample.no_signals Sample.md_to_html
                            (Runs 1 [] Sample.boom)))).
Proof.
  split.
  - apply (progress_notifications Sample.no_signals Sample.md_to_html
             0 Sample.ok []). reflexivity.
  - apply (progress_notifications Sample.no_signals Sample.md_to_html
             1 [] Sample.boom). discriminate.
Defined.

(** C9: in every run, an [output] signal comes only with
    [finished(True)] and an [error] signal only with [finished(False)];
    no run emits both an [output] and an [error], and no run finishes
    both ways. *)
Theorem outcome_is_exclusive (Signals : Z -> option string)
    (self : ConversionThread) (w : process_behaviour) :
  let sigs := signals (trace (run Signals self w)) in
  (forall text, In (output text) sigs ->
     In (finished true) sigs /\ ~ In (finished false) sigs)
  /\ (forall msg, In (error msg) sigs ->
        In (finished false) sigs /\ ~ In (finished true) sigs)
  /\ ~ (exists text msg, In (output text) sigs /\ In (error msg) sigs).
Proof.
  intros sigs. subst sigs.
  destruct (run_signals_cases Signals self w)
    as [[text ->] | (pre & msg & -> & Hpre)].
  - split; [|split].
    + intros _ _. split; [simpl; auto|].
      simpl. intros [E | [E | [E | [E | []]]]]; discriminate E.
    + intros m Hin. simpl in Hin.
      destruct Hin as [E | [E | [E | [E | []]]]]; discriminate E.
    + intros (t & m & _ & Hin). simpl in Hin.
      destruct Hin as [E | [E | [E | [E | []]]]]; discriminate E.
  - assert (Hno : forall s, (forall v, s <> progress v) -> s <> error msg ->
                    s <> finished false ->
                    ~ In s (pre ++ [error msg; finished false])%list).
    { intros s Hp He Hf Hin. apply in_app_or in Hin as [Hin | Hin].
      - destruct (Hpre s Hin) as [v ->]. now apply (Hp v).
      - simpl in Hin. destruct Hin as [E | [E | []]]; congruence. }
    split; [|split].
    + intros t Hin. exfalso. revert Hin. apply Hno; discriminate.
    + intros m _. split.
      * apply in_or_app. right. simpl. auto.
      * apply Hno; discriminate.
    + intros (t & m & Hin & _). revert Hin. apply Hno; discriminate.
Qed.

Lemma outcome_is_exclusive_witness :
  In (finished true)
     (signals (trace (run Sample.no_signals Sample.md_to_html
                        (Runs 0 Sample.ok []))))
  /\ ~ In (finished false)
         (signals (trace (run Sample.no_signals Sample.md_to_html
                            (Runs 0 Sample.ok [])))).
Proof.
  apply (proj1 (outcome_is_exclusive Sample.no_signals Sample.md_to_html
                  (Runs 0 Sample.ok [])) "ok").
  simpl. auto.
Defined.

(** * The controller: [FileConverter.convert_bulk_files] *)

Section BulkFacts.

Local Open Scope string_scope.

Import FileConverter.

(** Every directory reached from an absolute path is absolute. *)
Lemma walk_roots_absolute (fs : dirtree) (top : string) :
  Py.startswith top os_path.sep = true ->
  Forall (fun entry : string * list string * list string =>
            Py.startswith (fst (fst entry)) os_path.sep = true)
         (os.walk top fs).
Proof.
  revert fs top. fix IH 1. intros [files subdirs] top Htop. simpl.
  constructor; [exact Htop|].
  induction subdirs as [|[name sub] l IHl]; [constructor|].
  apply Forall_app. split; [|exact IHl].
  apply IH. now apply join_absolute.
Qed.

(** Joining distributes over a tail that does not start a new root. *)
Lemma join_stem (root stem rest : string) :
  Py.startswith rest os_path.sep = false ->
  os_path.join root (stem ++ rest) = os_path.join root stem ++ rest.
Proof.
  intros Hrest. unfold os_path.join. destruct stem as [|c stem].
  - simpl (Py.startswith "" _). simpl ("" ++ rest). rewrite Hrest.
    destruct ((root =? "") || Py.endswith root os_path.sep).
    + now rewrite append_empty_r.
    + now rewrite !append_assoc.
  - change (Py.startswith (String c stem ++ rest) os_path.sep)
      with (Py.startswith (String c stem) os_path.sep).
    destruct (Py.startswith (String c stem) os_path.sep); [reflexivity|].
    destruct ((root =? "") || Py.endswith root os_path.sep);
      now rewrite !append_assoc.
Qed.

(** A selected name is a stem, a dot and an extension that lower-cases
    to the input format. *)
Lemma selected_inv (input_format file : string) :
  selected input_format file = true ->
  exists stem ext, file = stem ++ "." ++ ext /\ Py.lower ext = input_format.
Proof.
  intros H. apply endswith_inv in H as [p Hp].
  apply lower_app_inv in Hp as (stem & b & -> & _ & Hb).
  destruct b as [|c ext]; [discriminate|].
  simpl in Hb. injection Hb as Hc Hext.
  apply (proj1 (lower_ascii_dot c)) in Hc. subst c. now exists stem, ext.
Qed.

Lemma selected_intro (input_format stem ext : string) :
  Py.lower ext = input_format ->
  selected input_format (stem ++ "." ++ ext) = true.
Proof.
  intros <-. unfold selected. rewrite lower_app.
  change (Py.lower ("." ++ ext)) with ("." ++ Py.lower ext).
  apply endswith_app.
Qed.

Lemma join_absolute_r (a b : string) :
  Py.startswith b os_path.sep = true -> os_path.join a b = b.
Proof. intros H. unfold os_path.join. now rewrite H. Qed.

(** The job of a selected file of an absolute directory. *)
Lemma convert_one_selected (self : t) (input_format output_format : string)
    (root stem ext : string) :
  Py.startswith root os_path.sep = true ->
  Py.contains "." input_format = false ->
  Py.lower ext = input_format ->
  convert_one self input_format output_format root (stem ++ "." ++ ext)
  = let thread :=
      mkConversionThread
        (os_path.join root (stem ++ "." ++ ext))
        (os_path.join root (stem ++ "." ++ output_format))
        input_format output_format (pdf_engine self) in
    [Start thread; Wait thread].
Proof.
  intros Hroot Hfmt Hext.
  assert (Hdot : Py.contains "." ext = false)
    by now rewrite <- contains_dot_lower, Hext.
  unfold convert_one.
  change (Py.endswith (Py.lower (stem ++ "." ++ ext)) ("." ++ input_format))
    with (selected input_format (stem ++ "." ++ ext)).
  rewrite (selected_intro _ _ _ Hext).
  rewrite (join_stem root stem ("." ++ ext)) by reflexivity.
  rewrite (strip_extension _ _ Hdot).
  rewrite (join_stem root stem ("." ++ output_format)) by reflexivity.
  rewrite (join_absolute_r root (os_path.join root stem ++ "." ++ output_format)).
  - reflexivity.
  - apply startswith_sep_app. now apply join_absolute.
Qed.

Lemma convert_one_not_selected (self : t) (input_format output_format : string)
    (root file : string) :
  selected input_format file = false ->
  convert_one self input_format output_format root file = [].
Proof. intros H. unfold convert_one. unfold selected in H. now rewrite H. Qed.

Lemma started_app (l l' : list ui_action) :
  started (l ++ l') = (started l ++ started l')%list.
Proof. apply flat_map_app. Qed.

Lemma in_started (th : ConversionThread) (l : list ui_action) :
  In th (started l) <-> In (Start th) l.
Proof.
  unfold started. rewrite in_flat_map. split.
  - intros (a & Ha & Hth). destruct a; simpl in Hth; try contradiction.
    destruct Hth as [<- | []]. exact Ha.
  - intros H. exists (Start th). split; [exact H | now left].
Qed.

Lemma started_convert_bulk_files (fs : dirtree) (self : t) (top : string) :
  input_directory self = Some top -> top <> "" ->
  started (convert_bulk_files fs self)
  = started (bulk_loop self (os.walk top fs)).
Proof.
  intros Hdir Htop. apply String.eqb_neq in Htop.
  unfold convert_bulk_files. rewrite Hdir, Htop.
  change (SetValue 0 :: ?l ++ [SetValue 100])%list
    with ([SetValue 0] ++ l ++ [SetValue 100])%list.
  rewrite !started_app. simpl. now rewrite app_nil_r.
Qed.

Lemma bulk_loop_files (self : t) (root : string) (files : list string) :
  Py.startswith root os_path.sep = true ->
  Py.contains "." (input_format_combo self) = false ->
  Forall2 (converts self)
    (filter (fun entry => selected (input_format_combo self) (snd entry))
       (map (pair root) files))
    (started (flat_map (convert_one self (input_format_combo self)
                          (output_format_combo self) root) files)).
Proof.
  intros Hroot Hfmt. induction files as [|file files IH]; [constructor|].
  simpl. change (?a ++ ?b)%list with (a ++ b)%list. rewrite started_app.
  destruct (selected (input_format_combo self) file) eqn:Hsel.
  - destruct (selected_inv _ _ Hsel) as (stem & ext & -> & Hext).
    rewrite (convert_one_selected _ _ _ _ _ _ Hroot Hfmt Hext). simpl.
    constructor; [|exact IH]. exists stem, ext. auto.
  - rewrite (convert_one_not_selected _ _ _ _ _ Hsel). exact IH.
Qed.

Lemma bulk_loop_entries (self : t)
    (entries : list (string * list string * list string)) :
  Forall (fun entry : string * list string * list string =>
            Py.startswith (fst (fst entry)) os_path.sep = true) entries ->
  Py.contains "." (input_format_combo self) = false ->
  Forall2 (converts self)
    (filter (fun entry => selected (input_format_combo self) (snd entry))
       (flat_map (fun entry : string * list string * list string =>
                    map (pair (fst (fst entry))) (snd entry)) entries))
    (started (bulk_loop self entries)).
Proof.
  intros Habs Hfmt. induction Habs as [|[[root dirs] files] entries Hroot _ IH].
  - constructor.
  - unfold bulk_loop. simpl. rewrite filter_app, started_app.
    apply Forall2_app; [|exact IH].
    now apply bulk_loop_files.
Qed.

End BulkFacts.

(** ** The jobs of a bulk run *)

(** The description's example: over [a.md], [b.md] and [c.txt] with input
    format md, two threads are started, for [a.md] and for [b.md]. *)
Example bulk_example_abc :
  FileConverter.started
    (FileConverter.convert_bulk_files Sample.abc Sample.window)
  = [mkConversionThread "/d/a.md" "/d/a.html" "md" "html" "xelatex";
     mkConversionThread "/d/b.md" "/d/b.html" "md" "html" "xelatex"].
Proof. reflexivity. Qed.

(** C3, as stated, fails: with input format md, the file [A.MD] does not
    end in [.md], yet a thread is started for it. *)
Lemma bulk_suffix_counterexample :
  ~ (forall fs self top root file,
       FileConverter.input_directory self = Some top ->
       In (root, file) (walk_files top fs) ->
       ((exists th,
           In th (FileConverter.started
                    (FileConverter.convert_bulk_files fs self))
           /\ input_file th = os_path.join root file)
        <-> Spec.name_has_suffix (FileConverter.input_format_combo self) file = true)).
Proof.
  intros H.
  specialize (H Sample.upper Sample.window "/d" "/d" "A.MD"
                eq_refl (or_introl eq_refl)).
  assert (Hsel : Spec.name_has_suffix "md" "A.MD" = true).
  { apply H.
    exists (mkConversionThread "/d/A.MD" "/d/A.html" "md" "html" "xelatex").
    split; [left; reflexivity | reflexivity]. }
  discriminate Hsel.
Qed.

(** C3, amended: in bulk mode over a directory chosen by an absolute
    path, with an input format that has no dot, the threads started are,
    in the order of the walk, one for each file directly or transitively
    under the directory whose lower-cased name ends in a dot and the input
    format, and none for any other file; each reads its file and writes,
    in the same directory, the name with the extension replaced by the
    output format. *)
Theorem bulk_jobs (fs : dirtree) (self : FileConverter.t) (top : string) :
  FileConverter.input_directory self = Some top ->
  Py.startswith top os_path.sep = true ->
  Py.contains "." (FileConverter.input_format_combo self) = false ->
  Forall2 (converts self)
    (filter (fun entry =>
               selected (FileConverter.input_format_combo self) (snd entry))
       (walk_files top fs))
    (FileConverter.started (FileConverter.convert_bulk_files fs self)).
Proof.
  intros Hdir Htop Hfmt.
  rewrite (started_convert_bulk_files fs self top Hdir).
  - apply bulk_loop_entries; [|exact Hfmt].
    now apply walk_roots_absolute.
  - intros ->. discriminate Htop.
Qed.

Lemma bulk_jobs_witness :
  Forall2 (converts Sample.window)
    (filter (fun entry => selected "md" (snd entry))
       (walk_files "/d" Sample.abc))
    (FileConverter.started
       (FileConverter.convert_bulk_files Sample.abc Sample.window)).
Proof.
  apply (bulk_jobs Sample.abc Sample.window "/d"); reflexivity.
Defined.

(** C10: in bulk mode, a file whose extension is the input format in any
    letter case is selected: a thread is started for it. *)
Theorem bulk_selection_ignores_case (fs : dirtree) (self : FileConverter.t)
    (top root stem ext : string) :
  FileConverter.input_directory self = Some top ->
  top <> "" ->
  In (root, stem ++ "." ++ ext) (walk_files top fs) ->
  Py.lower ext = FileConverter.input_format_combo self ->
  exists th,
    In th (FileConverter.started (FileConverter.convert_bulk_files fs self))
    /\ input_file th = os_path.join root (stem ++ "." ++ ext).
Proof.
  intros Hdir Htop Hin Hext.
  rewrite (started_convert_bulk_files fs self top Hdir Htop).
  unfold walk_files in Hin. apply in_flat_map in Hin as (entry & Hentry & Hfile).
  destruct entry as [[root' dirs] files]. simpl in Hfile.
  apply in_map_iff in Hfile as (file & Hpair & Hfile).
  injection Hpair as -> ->.
  pose proof (selected_intro _ stem ext Hext) as Hsel.
  eexists. split.
  - apply in_started. unfold bulk_loop. apply in_flat_map.
    exists (root, dirs, files). split; [exact Hentry|].
    apply in_flat_map. exists (stem ++ "." ++ ext). split; [exact Hfile|].
    unfold FileConverter.convert_one. unfold selected in Hsel. rewrite Hsel.
    left. reflexivity.
  - reflexivity.
Qed.

Lemma bulk_selection_ignores_case_witness :
  exists th,
    In th (FileConverter.started
             (FileConverter.convert_bulk_files Sample.upper Sample.window))
    /\ input_file th = "/d/A.MD".
Proof.
  apply (bulk_selection_ignores_case Sample.upper Sample.window
           "/d" "/d" "A" "MD").
  - reflexivity.
  - discriminate.
  - left. reflexivity.
  - reflexivity.
Defined.

(** ** One process per run *)

(** A run asks for one process, and when the process was launched the
    run waits for its end before it reports anything but the midpoint. *)
Lemma run_waits_for_its_process (Signals : Z -> option string)
    (self : ConversionThread) (w : process_behaviour) :
  match w with
  | LaunchFails _ _ _ =>
      exists rest,
        trace (run Signals self w) = Popen (command self) :: rest
        /\ ~ In Communicate rest
        /\ forall c, ~ In (Popen c) rest
  | Runs _ _ _ =>
      exists rest,
        trace (run Signals self w)
        = Popen (command self) :: Emit (progress 50) :: Communicate :: rest
        /\ forall c, ~ In (Popen c) rest
  end.
Proof.
  destruct w as [en se fn | rc out err].
  - rewrite run_launch_fails. eexists. split; [reflexivity|]. split.
    + simpl. intros [E | [E | []]]; discriminate E.
    + intros c. simpl. intros [E | [E | []]]; discriminate E.
  - destruct (Z.eq_dec rc 0) as [-> | Hrc].
    + destruct (utf8.decode out) as [e | text] eqn:Hd.
      * rewrite (run_zero_undecodable _ _ _ _ _ Hd).
        eexists. split; [reflexivity|]. intros c. simpl.
        intros [E | [E | [E | []]]]; discriminate E.
      * rewrite (run_zero_text _ _ _ _ _ Hd).
        eexists. split; [reflexivity|]. intros c. simpl.
        intros [E | [E | [E | []]]]; discriminate E.
    + rewrite (run_nonzero _ _ _ _ _ Hrc).
      eexists. split; [reflexivity|]. intros c. simpl.
      intros [E | [E | []]]; discriminate E.
Qed.

(** * Further properties of the worker *)

(** X1: a run never lets an exception escape, and it emits exactly one
    [finished] signal, as its last signal. *)
Theorem run_finishes_once (Signals : Z -> option string)
    (self : ConversionThread) (w : process_behaviour) :
  result (run Signals self w) = inr tt
  /\ exists pre ok,
       signals (trace (run Signals self w)) = (pre ++ [finished ok])%list
       /\ forall b, ~ In (finished b) pre.
Proof.
  split.
  - destruct w as [en se fn | rc out err]; [reflexivity|].
    destruct (Z.eq_dec rc 0) as [-> | Hrc].
    + destruct (utf8.decode out) as [e | text] eqn:Hd.
      * now rewrite (run_zero_undecodable _ _ _ _ _ Hd).
      * now rewrite (run_zero_text _ _ _ _ _ Hd).
    + now rewrite (run_nonzero _ _ _ _ _ Hrc).
  - destruct (run_signals_cases Signals self w)
      as [[text ->] | (pre & msg & -> & Hpre)].
    + exists [progress 50; progress 100; output text], true.
      split; [reflexivity|].
      intros b [E | [E | [E | []]]]; discriminate E.
    + exists (pre ++ [error msg])%list, false. split.
      * now rewrite <- app_assoc.
      * intros b Hin. apply in_app_or in Hin as [Hin | [E | []]].
        -- destruct (Hpre _ Hin) as [v E]. discriminate E.
        -- discriminate E.
Qed.

Lemma scan_ascii (l : list N) (i : nat) :
  Forall (fun b => (b < 128)%N) l -> utf8.scan i l = None.
Proof.
  intros H. revert i. induction H as [|b l Hb _ IH]; intros i; [reflexivity|].
  simpl. apply N.ltb_lt in Hb. rewrite Hb. apply IH.
Qed.

(** X2: when the process exits with status 0 and wrote only ASCII, the
    run succeeds and the [output] signal carries exactly those
    characters. *)
Theorem ascii_output_is_reported (Signals : Z -> option string)
    (self : ConversionThread) (out err : list byte) :
  Forall (fun b => (Byte.to_N b < 128)%N) out ->
  signals (trace (run Signals self (Runs 0 out err)))
  = [progress 50; progress 100; output (string_of_list_byte out);
     finished true].
Proof.
  intros H.
  assert (Hd : utf8.decode out = inr (string_of_list_byte out)).
  { unfold utf8.decode. rewrite scan_ascii; [reflexivity|].
    now apply Forall_map. }
  now rewrite (run_zero_text _ _ _ _ _ Hd).
Qed.

Lemma ascii_output_is_reported_witness :
  signals (trace (run Sample.no_signals Sample.md_to_html
                    (Runs 0 Sample.ok Sample.boom)))
  = [progress 50; progress 100; output "ok"; finished true].
Proof.
  apply (ascii_output_is_reported Sample.no_signals Sample.md_to_html
           Sample.ok Sample.boom).
  repeat constructor.
Defined.

(** * Further properties of the bulk controller *)

Lemma convert_one_shape (self : FileConverter.t)
    (input_format output_format root file : string) :
  FileConverter.convert_one self input_format output_format root file
  = flat_map (fun th => [FileConverter.Start th; FileConverter.Wait th])
      (FileConverter.started
         (FileConverter.convert_one self input_format output_format root file)).
Proof.
  unfold FileConverter.convert_one.
  destruct (Py.endswith (Py.lower file) ("." ++ input_format)); reflexivity.
Qed.

Lemma flat_map_shape {A} (f : A -> list FileConverter.ui_action) (l : list A) :
  (forall x, f x
             = flat_map (fun th => [FileConverter.Start th; FileConverter.Wait th])
                 (FileConverter.started (f x))) ->
  flat_map f l
  = flat_map (fun th => [FileConverter.Start th; FileConverter.Wait th])
      (FileConverter.started (flat_map f l)).
Proof.
  intros Hf. induction l as [|x l IH]; [reflexivity|].
  cbn [flat_map]. rewrite started_app, flat_map_app, <- IH, <- Hf.
  reflexivity.
Qed.

Lemma bulk_loop_shape (self : FileConverter.t)
    (entries : list (string * list string * list string)) :
  bulk_loop self entries
  = flat_map (fun th => [FileConverter.Start th; FileConverter.Wait th])
      (FileConverter.started (bulk_loop self entries)).
Proof.
  unfold bulk_loop. apply flat_map_shape.
  intros [[root dirs] files]. apply flat_map_shape.
  intros file. apply convert_one_shape.
Qed.

(** X3: a bulk run either only warns that nothing was selected, or it
    sets the bar to 0, then for each thread starts it and waits for it
    before anything else, and sets the bar to 100 at the end. *)
Theorem bulk_waits_after_each_start (fs : dirtree) (self : FileConverter.t) :
  let acts := FileConverter.convert_bulk_files fs self in
  acts = [FileConverter.Warning "Error" "Please select a file to convert."]
  \/ acts
     = (FileConverter.SetValue 0
          :: flat_map
               (fun th => [FileConverter.Start th; FileConverter.Wait th])
               (FileConverter.started acts)
          ++ [FileConverter.SetValue 100])%list.
Proof.
  intros acts. subst acts. unfold FileConverter.convert_bulk_files.
  destruct (FileConverter.input_directory self) as [dir|]; [|now left].
  destruct (dir =? "")%string; [now left|]. right.
  fold (bulk_loop self (os.walk dir fs)).
  change (FileConverter.started
            (FileConverter.SetValue 0
               :: bulk_loop self (os.walk dir fs)
               ++ [FileConverter.SetValue 100])%list)
    with (FileConverter.started
            (bulk_loop self (os.walk dir fs)
               ++ [FileConverter.SetValue 100])%list).
  rewrite started_app. simpl (FileConverter.started [_]).
  rewrite app_nil_r, <- bulk_loop_shape. reflexivity.
Qed.

Lemma length_append (a b : string) :
  String.length (a ++ b) = String.length a + String.length b.
Proof. induction a as [|c a IH]; simpl; [reflexivity | now rewrite IH]. Qed.

Lemma join_relative (a b : string) :
  Py.startswith b os_path.sep = false ->
  exists mid, os_path.join a b = a ++ mid ++ b.
Proof.
  intros H. unfold os_path.join. rewrite H.
  destruct ((a =? "")%string || Py.endswith a os_path.sep).
  - now exists "".
  - now exists os_path.sep.
Qed.

Lemma startswith_sep_app_false (a b : string) :
  a <> "" -> Py.startswith a os_path.sep = false ->
  Py.startswith (a ++ b) os_path.sep = false.
Proof. destruct a as [|c a]; [contradiction | intros _ H; exact H]. Qed.

(** X4: the loop body of a bulk run joins the directory onto a path that
    already starts with it.  For a directory given by a relative path the
    output therefore does not go next to the input but one copy of the
    directory path deeper. *)
Theorem bulk_relative_directory_nests (self : FileConverter.t)
    (input_format output_format root stem ext : string) :
  root <> "" ->
  Py.startswith root os_path.sep = false ->
  Py.startswith stem os_path.sep = false ->
  Py.contains "." input_format = false ->
  Py.lower ext = input_format ->
  exists th,
    FileConverter.convert_one self input_format output_format root
      (stem ++ "." ++ ext)
    = [FileConverter.Start th; FileConverter.Wait th]
    /\ input_file th = os_path.join root (stem ++ "." ++ ext)
    /\ output_file th
       = os_path.join root (os_path.join root (stem ++ "." ++ output_format))
    /\ output_file th <> os_path.join root (stem ++ "." ++ output_format).
Proof.
  intros Hne Hroot Hstem Hfmt Hext.
  assert (Hdot : Py.contains "." ext = false)
    by now rewrite <- contains_dot_lower, Hext.
  assert (Hrel : forall x, Py.startswith (stem ++ "." ++ x) os_path.sep = false).
  { intros x. destruct stem as [|c stem]; [reflexivity | exact Hstem]. }
  exists (mkConversionThread
            (os_path.join root (stem ++ "." ++ ext))
            (os_path.join root
               (os_path.join root (stem ++ "." ++ output_format)))
            input_format output_format (FileConverter.pdf_engine self)).
  split; [|split; [|split]].
  - assert (Hout :
      os_path.join root
        (Py.join "."
           (Py.drop_last
              (Py.split "." (os_path.join root (stem ++ "." ++ ext))))
         ++ "." ++ output_format)
      = os_path.join root (os_path.join root (stem ++ "." ++ output_format))).
    { rewrite (join_stem root stem ("." ++ ext)) by reflexivity.
      rewrite (strip_extension _ _ Hdot).
      now rewrite <- (join_stem root stem ("." ++ output_format)). }
    unfold FileConverter.convert_one.
    change (Py.endswith (Py.lower (stem ++ "." ++ ext)) ("." ++ input_format))
      with (selected input_format (stem ++ "." ++ ext)).
    rewrite (selected_intro _ _ _ Hext). cbv zeta. rewrite Hout.
    reflexivity.
  - reflexivity.
  - reflexivity.
  - cbn [output_file].
    destruct (join_relative root (stem ++ "." ++ output_format) (Hrel _))
      as [mid Hmid].
    assert (Hx : Py.startswith
                   (os_path.join root (stem ++ "." ++ output_format))
                   os_path.sep = false).
    { rewrite Hmid. now apply startswith_sep_app_false. }
    destruct (join_relative root _ Hx) as [mid' Hmid'].
    intros E. apply (f_equal String.length) in E.
    rewrite Hmid', !length_append in E.
    destruct root; [contradiction | simpl in E; lia].
Qed.

Lemma bulk_relative_directory_nests_witness :
  exists th,
    FileConverter.convert_one Sample.window "md" "html" "d" ("a" ++ "." ++ "md")
    = [FileConverter.Start th; FileConverter.Wait th]
    /\ input_file th = "d/a.md"
    /\ output_file th = "d/d/a.html"
    /\ output_file th <> "d/a.html".
Proof.
  apply (bulk_relative_directory_nests Sample.window "md" "html" "d" "a" "md");
    first [reflexivity | discriminate].
Defined.

(** * The slots of the window *)

(** A text that starts with a character other than the first byte of
    the marks arrives unchanged. *)
Lemma through_QString_plain (reversed : string -> string) (c : ascii)
    (rest : string) :
  (c =? ascii_of_nat 239)%char = false ->
  Qt.through_QString reversed (String c rest) = String c rest.
Proof.
  intros H. unfold Qt.through_QString, Qt.BOM, Qt.swapped_BOM.
  cbn [Py.startswith]. rewrite H. reflexivity.
Qed.

(** No message of an exception starts with a mark. *)
Lemma through_QString_str (reversed : string -> string)
    (Signals : Z -> option string) (e : exn) :
  Qt.through_QString reversed (str Signals e) = str Signals e.
Proof.
  destruct e as [rc cmd out | en se fn | o a b r]; cbn [str].
  - unfold str_CalledProcessError.
    destruct (negb (rc =? 0)%Z && (rc <? 0)%Z);
      [destruct (Signals (- rc)%Z)|];
      apply through_QString_plain; reflexivity.
  - unfold str_OSError. destruct fn;
      apply through_QString_plain; reflexivity.
  - unfold str_UnicodeDecodeError.
    destruct ((a <? List.length o)%nat && (b =? S a)%nat);
      apply through_QString_plain; reflexivity.
Qed.

(** Every error text of a run is the message of an exception. *)
Lemma run_error_messages (Signals : Z -> option string)
    (self : ConversionThread) (w : process_behaviour) (msg : string) :
  In (error msg) (signals (trace (run Signals self w))) ->
  exists e, msg = str Signals e.
Proof.
  destruct w as [en se fn | rc out err].
  - rewrite run_launch_fails. intros H. exists (OSError en se fn).
    simpl in H. destruct H as [E | [E | []]]; [|discriminate E].
    injection E as <-. reflexivity.
  - destruct (Z.eq_dec rc 0) as [-> | Hrc].
    + destruct (utf8.decode out) as [e | text] eqn:Hd.
      * rewrite (run_zero_undecodable _ _ _ _ _ Hd). intros H. exists e.
        simpl in H. destruct H as [E | [E | [E | [E | []]]]];
          try discriminate E.
        injection E as <-. reflexivity.
      * rewrite (run_zero_text _ _ _ _ _ Hd). simpl.
        intros [E | [E | [E | [E | []]]]]; discriminate E.
    + rewrite (run_nonzero _ _ _ _ _ Hrc). intros H.
      exists (CalledProcessError rc (command self) err).
      simpl in H. destruct H as [E | [E | [E | []]]]; try discriminate E.
      injection E as <-. reflexivity.
Qed.

Lemma deliver_all_app (reversed : string -> string) (s : Window.state)
    (l l' : list signal) :
  Window.deliver_all reversed s (l ++ l')
  = let (s1, out1) := Window.deliver_all reversed s l in
    let (s2, out2) := Window.deliver_all reversed s1 l' in
    (s2, (out1 ++ out2)%list).
Proof.
  revert s. induction l as [|x l IH]; intros s; simpl.
  - now destruct (Window.deliver_all reversed s l').
  - destruct (Window.deliver reversed s x) as [s1 out1]. rewrite IH.
    destruct (Window.deliver_all reversed s1 l) as [s2 out2].
    destruct (Window.deliver_all reversed s2 l') as [s3 out3].
    now rewrite app_assoc.
Qed.

(** Progress notifications touch nothing but the bar. *)
Lemma deliver_all_progress (reversed : string -> string) (s : Window.state)
    (l : list signal) :
  (forall x, In x l -> exists v, x = progress v) ->
  Window.set_progress 0 (fst (Window.deliver_all reversed s l))
  = Window.set_progress 0 s
  /\ snd (Window.deliver_all reversed s l) = [].
Proof.
  revert s. induction l as [|x l IH]; intros s H; [now split|].
  destruct (H x (or_introl eq_refl)) as [v ->]. simpl.
  specialize (IH (Window.set_progress v s) (fun y Hy => H y (or_intror Hy))).
  destruct (Window.deliver_all reversed (Window.set_progress v s) l)
    as [s2 out2].
  simpl in *. destruct IH as [IH1 IH2]. split; [|exact IH2].
  rewrite IH1. reflexivity.
Qed.

(** X5: after the slots handled the signals of a successful run, the
    bar is back at 0, the decoded standard output is appended to the
    output pane in the form in which it arrives through the signal (a
    leading byte order mark is gone), and the user saw one box, the
    notice of success. *)
Theorem slots_after_success (reversed : string -> string)
    (Signals : Z -> option string)
    (self : ConversionThread) (s : Window.state) (out err : list byte)
    (text : string) :
  utf8.decode out = inr text ->
  Window.deliver_all reversed s
    (signals (trace (run Signals self (Runs 0 out err))))
  = (Window.set_output_text
       (Window.output_text s ++ [Qt.through_QString reversed text])%list
       (Window.set_progress 0 s),
     [Window.MessageBox Window.Information "Conversion Complete"
        "File converted successfully."]).
Proof.
  intros Hd. rewrite (run_zero_text _ _ _ _ _ Hd). reflexivity.
Qed.

Lemma slots_after_success_witness :
  Window.deliver_all Demo.as_it_is Window.init
    (signals (trace (run Sample.no_signals Sample.md_to_html
                       (Runs 0 Demo.marked_ok []))))
  = (Window.set_output_text ["ok"] Window.init,
     [Window.MessageBox Window.Information "Conversion Complete"
        "File converted successfully."]).
Proof.
  apply (slots_after_success Demo.as_it_is Sample.no_signals
           Sample.md_to_html Window.init Demo.marked_ok []
           (Qt.BOM ++ "ok")).
  reflexivity.
Defined.

(** X6: after the slots handled the signals of a run that finished
    with failure, the bar is back at 0, nothing else of the window
    changed, and the user saw two boxes: the error with the message of
    the run, then the notice of failure. *)
Theorem slots_after_failure (reversed : string -> string)
    (Signals : Z -> option string)
    (self : ConversionThread) (s : Window.state) (w : process_behaviour) :
  In (finished false) (signals (trace (run Signals self w))) ->
  exists msg,
    In (error msg) (signals (trace (run Signals self w)))
    /\ Window.deliver_all reversed s (signals (trace (run Signals self w)))
       = (Window.set_progress 0 s,
          [Window.MessageBox Window.Critical "Conversion Error"
             ("An error occurred during conversion:" ++ PyStr.newline ++ msg);
           Window.MessageBox Window.Critical "Conversion Failed"
             "An error occurred during conversion."]).
Proof.
  intros Hfail.
  destruct (run_signals_cases Signals self w)
    as [[text E] | (pre & msg & E & Hpre)].
  - rewrite E in Hfail. simpl in Hfail.
    destruct Hfail as [H | [H | [H | [H | []]]]]; discriminate H.
  - assert (Hmsg : In (error msg) (signals (trace (run Signals self w))))
      by (rewrite E; apply in_or_app; right; now left).
    destruct (run_error_messages Signals self w msg Hmsg) as [e ->].
    exists (str Signals e). split; [exact Hmsg|].
    rewrite E, deliver_all_app.
    destruct (deliver_all_progress reversed s pre Hpre) as [Hs Hout].
    destruct (Window.deliver_all reversed s pre) as [s1 out1].
    simpl in Hs, Hout. subst out1. simpl.
    rewrite through_QString_str, Hs. reflexivity.
Qed.

Lemma slots_after_failure_witness :
  exists msg,
    In (error msg)
       (signals (trace (run Sample.no_signals Sample.md_to_html Demo.missing)))
    /\ Window.deliver_all Demo.as_it_is Window.init
         (signals (trace (run Sample.no_signals Sample.md_to_html Demo.missing)))
       = (Window.set_progress 0 Window.init,
          [Window.MessageBox Window.Critical "Conversion Error"
             ("An error occurred during conversion:" ++ PyStr.newline ++ msg);
           Window.MessageBox Window.Critical "Conversion Failed"
             "An error occurred during conversion."]).
Proof.
  apply (slots_after_failure Demo.as_it_is Sample.no_signals
           Sample.md_to_html Window.init Demo.missing).
  right. left. reflexivity.
Defined.

(** * Converting one file *)

(** X7: for a selected path that ends in a dot and an extension without
    dots, the save dialog proposes the path with that extension replaced
    by the output format, and filters on the output format. *)
Theorem single_suggests_replaced_extension (self : Window.state)
    (answer stem ext : string) :
  Window.input_file self = Some (stem ++ "." ++ ext) ->
  Py.contains "." ext = false ->
  exists rest,
    snd (Window.convert_single_file self answer)
    = Window.SaveFileName "Save File"
        (stem ++ "." ++ Window.output_format_combo self)
        ("*." ++ Window.output_format_combo self) :: rest.
Proof.
  intros Hfile Hext. unfold Window.convert_single_file. rewrite Hfile.
  pose proof (strip_extension stem ext Hext) as Hstrip.
  destruct (stem ++ "." ++ ext) as [|c f] eqn:E.
  - destruct stem; discriminate E.
  - rewrite Hstrip. destruct (answer =? "")%string; eexists; reflexivity.
Qed.

Lemma single_suggests_replaced_extension_witness :
  exists rest,
    snd (Window.convert_single_file Demo.notes_window "/out/Notes.pdf")
    = Window.SaveFileName "Save File" "/d/Notes.pdf" "*.pdf" :: rest.
Proof.
  apply (single_suggests_replaced_extension Demo.notes_window
           "/out/Notes.pdf" "/d/Notes" "MD"); reflexivity.
Defined.

(** X8: for a selected path without any dot, the save dialog proposes
    only a dot and the output format: directory and name are lost. *)
Theorem single_suggestion_without_dot (self : Window.state)
    (answer file : string) :
  Window.input_file self = Some file ->
  file <> "" ->
  Py.contains "." file = false ->
  exists rest,
    snd (Window.convert_single_file self answer)
    = Window.SaveFileName "Save File"
        ("." ++ Window.output_format_combo self)
        ("*." ++ Window.output_format_combo self) :: rest.
Proof.
  intros Hfile Hne Hdot. unfold Window.convert_single_file. rewrite Hfile.
  pose proof (split_without_sep "." file Hdot) as Hsplit.
  destruct file as [|c f]; [contradiction|].
  rewrite Hsplit. destruct (answer =? "")%string; eexists; reflexivity.
Qed.

Lemma single_suggestion_without_dot_witness :
  exists rest,
    snd (Window.convert_single_file
           (Window.set_input_file (Some "/d/README") Window.init) "")
    = Window.SaveFileName "Save File" ".pdf" "*.pdf" :: rest.
Proof.
  apply (single_suggestion_without_dot
           (Window.set_input_file (Some "/d/README") Window.init)
           "" "/d/README");
    first [reflexivity | discriminate].
Defined.

(** X9: a click on Convert in single mode starts at most one thread and
    waits for none.  A thread is started only for a selected file and a
    save dialog that was not cancelled; it reads the selected file, writes
    to the path that the dialog returned, and takes its formats from the
    combo boxes and the engine from the menu. *)
Theorem single_starts_at_most_one (self : Window.state) (answer : string) :
  let effects := snd (Window.convert_single_file self answer) in
  (List.length (Window.started effects) <= 1)%nat
  /\ (forall th, ~ In (Window.Wait th) effects)
  /\ (forall th, In th (Window.started effects) ->
      Window.input_file self = Some (input_file th)
      /\ input_file th <> ""
      /\ output_file th = answer
      /\ answer <> ""
      /\ input_format th = Window.input_format_combo self
      /\ output_format th = Window.output_format_combo self
      /\ pdf_engine th = Window.pdf_engine self).
Proof.
  unfold Window.convert_single_file.
  destruct (Window.input_file self) as [[|c f]|] eqn:Hfile; simpl.
  - split; [lia|]. split; [|intros th []].
    intros th [E | []]; discriminate E.
  - destruct (String.eqb_spec answer "") as [-> | Hans]; simpl.
    + split; [lia|]. split; [|intros th []].
      intros th [E | [E | []]]; discriminate E.
    + split; [lia|]. split.
      * intros th [E | [E | []]]; discriminate E.
      * intros th [<- | []]. simpl. repeat split; auto. discriminate.
  - split; [lia|]. split; [|intros th []].
    intros th [E | []]; discriminate E.
Qed.

Lemma single_starts_at_most_one_witness :
  Window.input_file Demo.notes_window
  = Some (input_file
            (mkConversionThread "/d/Notes.MD" "/out.pdf" "md" "pdf" "xelatex")).
Proof.
  apply (single_starts_at_most_one Demo.notes_window "/out.pdf").
  left. reflexivity.
Defined.

(** X10: a cancelled selection dialog erases the earlier selection of
    its mode: the next click on Convert only shows the warning, starts
    no thread and leaves the window as it is. *)
Theorem cancelled_selection_blocks_conversion
    (guess_type : string -> option string) (self : Window.state)
    (fs : dirtree) (answer : string) :
  let self' := fst (Window.select_file guess_type self "") in
  Window.convert_file fs self' answer
  = (self', [Window.MessageBox Window.Warning "Error"
               "Please select a file to convert."]).
Proof.
  unfold Window.select_file, Window.convert_file.
  destruct (Window.bulk_conversion self) eqn:Hbulk; simpl; rewrite Hbulk.
  - reflexivity.
  - reflexivity.
Qed.

(** * What a session keeps *)

Lemma same_settings_refl (s : Window.state) : same_settings s s.
Proof. repeat split. Qed.

Lemma same_settings_trans (s1 s2 s3 : Window.state) :
  same_settings s1 s2 -> same_settings s2 s3 -> same_settings s1 s3.
Proof.
  unfold same_settings. intros (A1 & A2 & A3 & A4 & A5) (B1 & B2 & B3 & B4 & B5).
  repeat split; congruence.
Qed.

Lemma perform_all_settings (l : list FileConverter.ui_action) (s : Window.state) :
  same_settings s (fst (Window.perform_all s l)).
Proof.
  revert s. induction l as [|a l IH]; intros s; [apply same_settings_refl|].
  simpl. destruct (Window.perform s a) as [s1 out1] eqn:E1.
  specialize (IH s1).
  destruct (Window.perform_all s1 l) as [s2 out2]. simpl in *.
  apply (same_settings_trans s s1 s2); [|exact IH].
  destruct a; simpl in E1; injection E1 as <- _; repeat split.
Qed.

Lemma deliver_settings (reversed : string -> string) (s : Window.state)
    (x : signal) :
  same_settings s (fst (Window.deliver reversed s x)).
Proof. destruct x; repeat split. Qed.

Lemma convert_single_file_settings (s : Window.state) (answer : string) :
  same_settings s (fst (Window.convert_single_file s answer)).
Proof.
  unfold Window.convert_single_file.
  destruct (Window.input_file s) as [[|c f]|]; try apply same_settings_refl.
  destruct (answer =? "")%string; repeat split.
Qed.

Lemma mem_In (x : string) (l : list string) :
  PyStr.mem x l = true -> In x l.
Proof.
  unfold PyStr.mem. intros H. apply existsb_exists in H as (y & Hy & E).
  apply String.eqb_eq in E. now subst.
Qed.

Lemma detect_file_type_format (guess_type : string -> option string)
    (s : Window.state) :
  let s' := fst (Window.detect_file_type guess_type s) in
  Window.pdf_engine s' = Window.pdf_engine s
  /\ Window.bulk_conversion s' = Window.bulk_conversion s
  /\ Window.select_file_button s' = Window.select_file_button s
  /\ Window.output_format_combo s' = Window.output_format_combo s
  /\ (Window.input_format_combo s' = Window.input_format_combo s
      \/ In (Window.input_format_combo s')
            FileConverter.SUPPORTED_INPUT_FORMATS).
Proof.
  unfold Window.detect_file_type.
  destruct (guess_type _) as [[|a t]|]; [simpl; auto 6 | | simpl; auto 6].
  match goal with
  | |- context [PyStr.mem ?x ?l] => destruct (PyStr.mem x l) eqn:Hmem
  end; [|simpl; auto 6].
  cbn [fst Window.set_input_format Window.pdf_engine Window.bulk_conversion
       Window.select_file_button Window.output_format_combo
       Window.input_format_combo].
  repeat split. right. now apply mem_In.
Qed.

Lemma select_file_format (guess_type : string -> option string)
    (s : Window.state) (answer : string) :
  let s' := fst (Window.select_file guess_type s answer) in
  Window.pdf_engine s' = Window.pdf_engine s
  /\ Window.bulk_conversion s' = Window.bulk_conversion s
  /\ Window.select_file_button s' = Window.select_file_button s
  /\ Window.output_format_combo s' = Window.output_format_combo s
  /\ (Window.input_format_combo s' = Window.input_format_combo s
      \/ In (Window.input_format_combo s')
            FileConverter.SUPPORTED_INPUT_FORMATS).
Proof.
  unfold Window.select_file.
  destruct (Window.bulk_conversion s) eqn:Hbulk.
  - destruct (negb (answer =? "")%string); simpl; auto 6.
  - destruct (negb (answer =? "")%string); [|simpl; auto 6].
    destruct (detect_file_type_format guess_type
                (Window.set_label (posixpath.basename answer)
                   (Window.set_input_file (Some answer) s)))
      as (E1 & E2 & E3 & E4 & E5).
    cbv zeta. rewrite E1, E2, E3, E4. simpl. rewrite Hbulk.
    repeat split. exact E5.
Qed.

(** X11: in every state that a session can reach, the input format, the
    output format and the engine are among the supported ones, and the
    selection button reads Select Folder exactly in bulk mode. *)
Theorem reachable_settings (guess_type : string -> option string)
    (reversed : string -> string) (s : Window.state) :
  Window.reachable guess_type reversed s ->
  In (Window.input_format_combo s) FileConverter.SUPPORTED_INPUT_FORMATS
  /\ In (Window.output_format_combo s) FileConverter.SUPPORTED_OUTPUT_FORMATS
  /\ In (Window.pdf_engine s) FileConverter.SUPPORTED_PDF_ENGINES
  /\ Window.select_file_button s
     = (if Window.bulk_conversion s then "Select Folder" else "Select File").
Proof.
  induction 1 as [|s e Hs (Hin & Hout & Heng & Hbut) He].
  - simpl. auto 10.
  - destruct e as [engine | checked | checked | answer | format | fs answer | x];
      simpl in He.
    + simpl. auto.
    + subst checked. unfold Window.step, Window.toggle_bulk_conversion.
      cbn [fst]. simpl. rewrite Hbut.
      destruct (Window.bulk_conversion s); simpl; auto.
    + simpl. auto.
    + destruct (select_file_format guess_type s answer)
        as (E1 & E2 & E3 & E4 & E5).
      cbn [Window.step]. rewrite E1, E2, E3, E4.
      repeat split; auto. destruct E5 as [-> | E5]; assumption.
    + simpl. auto.
    + cbn [Window.step]. unfold Window.convert_file.
      destruct (Window.bulk_conversion s) eqn:Hbulk.
      * destruct (perform_all_settings
                    (FileConverter.convert_bulk_files fs (Window.controller s)) s)
          as (E1 & E2 & E3 & E4 & E5).
        unfold Window.convert_bulk_files.
        rewrite E1, E2, E3, E4, E5, Hbulk. auto.
      * destruct (convert_single_file_settings s answer)
          as (E1 & E2 & E3 & E4 & E5).
        rewrite E1, E2, E3, E4, E5, Hbulk. auto.
    + destruct (deliver_settings reversed s x) as (E1 & E2 & E3 & E4 & E5).
      cbn [Window.step]. rewrite E1, E2, E3, E4, E5. auto.
Qed.

Lemma reachable_settings_witness :
  In (Window.input_format_combo Demo.notes_window)
     FileConverter.SUPPORTED_INPUT_FORMATS
  /\ In (Window.output_format_combo Demo.notes_window)
        FileConverter.SUPPORTED_OUTPUT_FORMATS
  /\ In (Window.pdf_engine Demo.notes_window)
        FileConverter.SUPPORTED_PDF_ENGINES
  /\ Window.select_file_button Demo.notes_window = "Select File".
Proof.
  apply (reachable_settings Demo.markdown Demo.as_it_is Demo.notes_window).
  apply (Window.reach_step Demo.markdown Demo.as_it_is Window.init
           (Window.ClickSelect "/d/Notes.MD")).
  - apply Window.reach_init.
  - exact I.
Defined.

Lemma started_perform_all (l : list FileConverter.ui_action) (s : Window.state) :
  Window.started (snd (Window.perform_all s l)) = FileConverter.started l.
Proof.
  revert s. induction l as [|a l IH]; intros s; [reflexivity|].
  simpl. destruct (Window.perform s a) as [s1 out1] eqn:E1.
  specialize (IH s1). destruct (Window.perform_all s1 l) as [s2 out2].
  simpl in *. unfold Window.started in *. rewrite flat_map_app, IH.
  destruct a; simpl in E1; injection E1 as _ <-; reflexivity.
Qed.

(** Every thread of a bulk run is built from the settings of the window. *)
Lemma bulk_thread_settings (fs : dirtree) (self : FileConverter.t)
    (th : ConversionThread) :
  In th (FileConverter.started (FileConverter.convert_bulk_files fs self)) ->
  input_format th = FileConverter.input_format_combo self
  /\ output_format th = FileConverter.output_format_combo self
  /\ pdf_engine th = FileConverter.pdf_engine self.
Proof.
  intros H. apply in_started in H. unfold FileConverter.convert_bulk_files in H.
  destruct (FileConverter.input_directory self) as [dir|].
  2:{ destruct H as [E | []]; discriminate E. }
  destruct (dir =? "")%string.
  { destruct H as [E | []]; discriminate E. }
  destruct H as [E | H]; [discriminate E|].
  apply in_app_or in H as [H | [E | []]]; [|discriminate E].
  apply in_flat_map in H as ([[root dirs] files] & _ & H).
  apply in_flat_map in H as (file & _ & H).
  unfold FileConverter.convert_one in H.
  destruct (Py.endswith _ _); [|destruct H].
  destruct H as [E | [E | []]]; [|discriminate E].
  injection E as <-. repeat split.
Qed.

(** X12: every thread that a click on Convert starts in a reachable
    state, in either mode, carries a supported input format, a supported
    output format and a supported engine. *)
Theorem started_threads_are_supported (guess_type : string -> option string)
    (reversed : string -> string)
    (s : Window.state) (fs : dirtree) (answer : string)
    (th : ConversionThread) :
  Window.reachable guess_type reversed s ->
  In th (Window.started (snd (Window.convert_file fs s answer))) ->
  In (input_format th) FileConverter.SUPPORTED_INPUT_FORMATS
  /\ In (output_format th) FileConverter.SUPPORTED_OUTPUT_FORMATS
  /\ In (pdf_engine th) FileConverter.SUPPORTED_PDF_ENGINES.
Proof.
  intros Hreach Hin.
  destruct (reachable_settings guess_type reversed s Hreach)
    as (Hi & Ho & He & _).
  unfold Window.convert_file in Hin.
  destruct (Window.bulk_conversion s).
  - unfold Window.convert_bulk_files in Hin.
    rewrite started_perform_all in Hin.
    apply bulk_thread_settings in Hin as (-> & -> & ->). auto.
  - apply (single_starts_at_most_one s answer) in Hin
      as (_ & _ & _ & _ & -> & -> & ->). auto.
Qed.

Lemma started_threads_are_supported_witness :
  In (input_format
        (mkConversionThread "/d/Notes.MD" "/out.pdf" "md" "pdf" "xelatex"))
     FileConverter.SUPPORTED_INPUT_FORMATS
  /\ In (output_format
           (mkConversionThread "/d/Notes.MD" "/out.pdf" "md" "pdf" "xelatex"))
        FileConverter.SUPPORTED_OUTPUT_FORMATS
  /\ In (pdf_engine
           (mkConversionThread "/d/Notes.MD" "/out.pdf" "md" "pdf" "xelatex"))
        FileConverter.SUPPORTED_PDF_ENGINES.
Proof.
  apply (started_threads_are_supported Demo.markdown Demo.as_it_is
           Demo.notes_window Sample.abc "/out.pdf").
  - apply (Window.reach_step Demo.markdown Demo.as_it_is Window.init
             (Window.ClickSelect "/d/Notes.MD")).
    + apply Window.reach_init.
    + exact I.
  - left. reflexivity.
Defined.

(** X13: the input format changes only when a file is selected in
    single mode: in bulk mode, and on every event other than a click on
    the selection button, it stays what it was. *)
Theorem input_format_changes_only_by_file_selection
    (guess_type : string -> option string) (reversed : string -> string)
    (s : Window.state) (e : Window.event) :
  Window.bulk_conversion s = true \/ (forall answer, e <> Window.ClickSelect answer) ->
  Window.input_format_combo (fst (Window.step guess_type reversed s e))
  = Window.input_format_combo s.
Proof.
  intros H.
  destruct e as [engine | checked | checked | answer | format | fs answer | x].
  - reflexivity.
  - unfold Window.step, Window.toggle_bulk_conversion. cbn [fst].
    destruct (Window.select_file_button _ =? "Select File")%string; reflexivity.
  - reflexivity.
  - destruct H as [Hbulk | H]; [|now contradiction (H answer)].
    unfold Window.step, Window.select_file. rewrite Hbulk.
    destruct (negb (answer =? "")%string); reflexivity.
  - reflexivity.
  - cbn [Window.step]. unfold Window.convert_file.
    destruct (Window.bulk_conversion s).
    + apply (perform_all_settings
               (FileConverter.convert_bulk_files fs (Window.controller s)) s).
    + apply (convert_single_file_settings s answer).
  - apply (deliver_settings reversed s x).
Qed.

Lemma input_format_changes_only_by_file_selection_witness :
  Window.input_format_combo
    (fst (Window.step Demo.markdown Demo.as_it_is Demo.bulk_window
            (Window.ClickSelect "/d/Notes.MD")))
  = "epub".
Proof.
  apply (input_format_changes_only_by_file_selection Demo.markdown
           Demo.as_it_is Demo.bulk_window (Window.ClickSelect "/d/Notes.MD")).
  left. reflexivity.
Defined.

(** * The installation checks *)

Section CheckFacts.

Variable Signals : Z -> option string.
Variable PATH : option string.

Lemma check_pandoc_answer (w : process_behaviour) :
  (snd (check_pandoc_installed Signals PATH w) = inr true <-> answers_version w)
  /\ (snd (check_pandoc_installed Signals PATH w) = inr false
      <-> fails_version w /\ PATH <> None).
Proof.
  unfold check_pandoc_installed.
  destruct w as [en se fn | rc out err].
  - simpl. unfold ENOENT. destruct (Z.eqb_spec en 2) as [-> | Hen].
    + destruct PATH as [path|]; simpl; settle_answer.
    + simpl. settle_answer.
  - unfold subprocess_run, bind, result, trace; simpl.
    destruct (Z.eqb_spec rc 0) as [-> | Hrc]; simpl.
    + destruct (utf8.decode out) as [e | text] eqn:Hd; simpl; settle_answer.
    + destruct PATH as [path|]; simpl; settle_answer.
Qed.

Lemma check_pdflatex_answer (w : process_behaviour) :
  (snd (check_pdflatex_installed Signals PATH w) = inr true
   <-> answers_version w)
  /\ (snd (check_pdflatex_installed Signals PATH w) = inr false
      <-> fails_version w /\ PATH <> None).
Proof.
  unfold check_pdflatex_installed.
  destruct w as [en se fn | rc out err].
  - simpl. unfold ENOENT. destruct (Z.eqb_spec en 2) as [-> | Hen].
    + destruct PATH as [path|]; simpl; settle_answer.
    + simpl. settle_answer.
  - unfold subprocess_run, bind, result, trace; simpl.
    destruct (Z.eqb_spec rc 0) as [-> | Hrc]; simpl.
    + destruct (utf8.decode out) as [e | text] eqn:Hd; simpl; settle_answer.
    + destruct PATH as [path|]; simpl; settle_answer.
Qed.

End CheckFacts.

(** X14: each installation check answers True exactly when its tool
    runs to a zero exit status and prints valid UTF-8, and answers False
    exactly when the tool is missing or exits with a non-zero status
    while the PATH variable is set. *)
Theorem checks_answer (Signals : Z -> option string) (PATH : option string)
    (w : process_behaviour) :
  (snd (check_pandoc_installed Signals PATH w) = inr true <-> answers_version w)
  /\ (snd (check_pandoc_installed Signals PATH w) = inr false
      <-> fails_version w /\ PATH <> None)
  /\ (snd (check_pdflatex_installed Signals PATH w) = inr true
      <-> answers_version w)
  /\ (snd (check_pdflatex_installed Signals PATH w) = inr false
      <-> fails_version w /\ PATH <> None).
Proof.
  destruct (check_pandoc_answer Signals PATH w) as [H1 H2].
  destruct (check_pdflatex_answer Signals PATH w) as [H3 H4].
  auto.
Qed.

Lemma checks_answer_witness :
  snd (check_pandoc_installed Sample.no_signals (Some "/usr/bin") Demo.missing)
  = inr false.
Proof.
  apply (checks_answer Sample.no_signals (Some "/usr/bin") Demo.missing).
  split; [|discriminate].
  left. exists "No such file or directory", (Some "pandoc"). reflexivity.
Defined.

(** X15: a launch failure other than a missing file, such as a denied
    permission, is not handled by the checks: the exception escapes, and
    nothing is printed. *)
Theorem checks_let_other_launch_failures_escape
    (Signals : Z -> option string) (PATH : option string)
    (errno : Z) (strerror : string) (filename : option string) :
  errno <> ENOENT ->
  check_pandoc_installed Signals PATH (LaunchFails errno strerror filename)
  = ([Popen ["pandoc"; "--version"]], [],
     inl (Raised (OSError errno strerror filename)))
  /\ check_pdflatex_installed Signals PATH (LaunchFails errno strerror filename)
     = ([Popen ["pdflatex"; "--version"]], [],
        inl (Raised (OSError errno strerror filename))).
Proof.
  intros H. apply Z.eqb_neq in H.
  unfold check_pandoc_installed, check_pdflatex_installed. simpl.
  rewrite H. split; reflexivity.
Qed.

Lemma checks_let_other_launch_failures_escape_witness :
  check_pandoc_installed Sample.no_signals (Some "/usr/bin") Demo.denied
  = ([Popen ["pandoc"; "--version"]], [],
     inl (Raised (OSError 13 "Permission denied" (Some "pandoc"))))
  /\ check_pdflatex_installed Sample.no_signals (Some "/usr/bin") Demo.denied
     = ([Popen ["pdflatex"; "--version"]], [],
        inl (Raised (OSError 13 "Permission denied" (Some "pandoc")))).
Proof.
  apply (checks_let_other_launch_failures_escape Sample.no_signals
           (Some "/usr/bin") 13 "Permission denied" (Some "pandoc")).
  discriminate.
Defined.

(** X16: the window opens exactly when both pandoc and pdflatex answer
    their version request, whatever engine is selected. *)
Theorem startup_opens_iff (Signals : Z -> option string) (PATH : option string)
    (pandoc pdflatex : process_behaviour) :
  snd (initUI_checks Signals PATH pandoc pdflatex) = Opened
  <-> answers_version pandoc /\ answers_version pdflatex.
Proof.
  destruct (check_pandoc_answer Signals PATH pandoc) as [Hp _].
  destruct (check_pdflatex_answer Signals PATH pdflatex) as [Hl _].
  unfold initUI_checks.
  destruct (check_pandoc_installed Signals PATH pandoc) as [[ran printed] r].
  destruct (check_pdflatex_installed Signals PATH pdflatex)
    as [[ran' printed'] r'].
  simpl in Hp, Hl.
  destruct r as [f | [|]]; simpl.
  - split; [discriminate|]. intros [H _]. apply Hp in H. discriminate H.
  - destruct r' as [f' | [|]]; simpl.
    + split; [discriminate|]. intros [_ H]. apply Hl in H. discriminate H.
    + split; [intros _|reflexivity]. split; [now apply Hp | now apply Hl].
    + split; [discriminate|]. intros [_ H]. apply Hl in H. discriminate H.
  - split; [discriminate|]. intros [H _]. apply Hp in H. discriminate H.
Qed.

(** X17: when pandoc fails its check, the start ends with the notice
    about pandoc and exit status 1, and pdflatex is not run at all. *)
Theorem startup_stops_at_pandoc (Signals : Z -> option string)
    (PATH : option string) (pandoc pdflatex : process_behaviour) :
  fails_version pandoc -> PATH <> None ->
  snd (initUI_checks Signals PATH pandoc pdflatex)
  = Exited "Pandoc Not Installed" 1
  /\ forall c, In (Popen c) (fst (initUI_checks Signals PATH pandoc pdflatex)) ->
       c = ["pandoc"; "--version"].
Proof.
  intros Hfail Hpath.
  destruct (check_pandoc_answer Signals PATH pandoc) as [_ Hp].
  assert (Hr : snd (check_pandoc_installed Signals PATH pandoc) = inr false)
    by (apply Hp; auto).
  assert (Hran : forall c,
            In (Popen c) (fst (fst (check_pandoc_installed Signals PATH pandoc))) ->
            c = ["pandoc"; "--version"]).
  { intros c. unfold check_pandoc_installed.
    destruct pandoc as [en se fn | rc out err].
    - simpl. destruct (en =? ENOENT)%Z; [destruct PATH|]; simpl;
        intros [E | []]; now injection E as <-.
    - unfold subprocess_run, bind, result, trace; simpl.
      destruct (negb (rc =? 0)%Z); simpl.
      + destruct PATH; simpl; intros [E | [E | []]];
          first [discriminate E | now injection E as <-].
      + destruct (utf8.decode out); simpl; intros [E | [E | []]];
          first [discriminate E | now injection E as <-]. }
  unfold initUI_checks.
  destruct (check_pandoc_installed Signals PATH pandoc) as [[ran printed] r].
  simpl in Hr, Hran. subst r. simpl. split; [reflexivity | exact Hran].
Qed.

Lemma startup_stops_at_pandoc_witness :
  snd (initUI_checks Sample.no_signals (Some "/usr/bin") Demo.missing
         (Runs 0 Sample.ok []))
  = Exited "Pandoc Not Installed" 1
  /\ forall c,
       In (Popen c)
          (fst (initUI_checks Sample.no_signals (Some "/usr/bin") Demo.missing
                  (Runs 0 Sample.ok []))) ->
       c = ["pandoc"; "--version"].
Proof.
  apply (startup_stops_at_pandoc Sample.no_signals (Some "/usr/bin")
           Demo.missing (Runs 0 Sample.ok [])).
  - left. exists "No such file or directory", (Some "pandoc"). reflexivity.
  - discriminate.
Defined.

(** * Detecting the input format *)

Section PathFacts.

Local Open Scope Z_scope.

Lemma rfind_from_app (c : ascii) (a b : string) (i found : Z) :
  PyStr.rfind_from c (a ++ b) i found
  = PyStr.rfind_from c b (i + Z.of_nat (String.length a))
      (PyStr.rfind_from c a i found).
Proof.
  revert i found. induction a as [|x a IH]; intros i found.
  - simpl. now rewrite Z.add_0_r.
  - simpl String.length. cbn [append PyStr.rfind_from]. rewrite IH.
    f_equal. lia.
Qed.

Lemma rfind_from_absent (c : ascii) (s : string) (i found : Z) :
  Py.contains c s = false -> PyStr.rfind_from c s i found = found.
Proof.
  revert i found. induction s as [|x s IH]; intros i found H; [reflexivity|].
  simpl in H. apply orb_false_iff in H as [Hx Hs].
  cbn [PyStr.rfind_from]. rewrite Hx. now apply IH.
Qed.

(** In [a ++ c ++ b] with no [c] in [b], the last [c] is right after [a]. *)
Lemma rfind_last (c : ascii) (a b : string) :
  Py.contains c b = false ->
  PyStr.rfind c (a ++ String c b) = Z.of_nat (String.length a).
Proof.
  intros H. unfold PyStr.rfind. rewrite rfind_from_app.
  cbn [PyStr.rfind_from]. rewrite Ascii.eqb_refl.
  now rewrite (rfind_from_absent _ _ _ _ H).
Qed.

Lemma rfind_app_absent (c : ascii) (a b : string) :
  Py.contains c b = false -> PyStr.rfind c (a ++ b) = PyStr.rfind c a.
Proof.
  intros H. unfold PyStr.rfind. rewrite rfind_from_app.
  now apply rfind_from_absent.
Qed.

Lemma slice_to_app (a b : string) :
  PyStr.slice_to (String.length a) (a ++ b) = a.
Proof.
  induction a as [|x a IH]; simpl; [now destruct b | now rewrite IH].
Qed.

Lemma slice_from_app (a b : string) :
  PyStr.slice_from (String.length a) (a ++ b) = b.
Proof.
  induction a as [|x a IH]; simpl; [now destruct b | exact IH].
Qed.

Lemma substring_at (a : string) (c : ascii) (r : string) :
  substring (String.length a) 1 (a ++ String c r) = String c "".
Proof.
  induction a as [|x a IH]; simpl; [now destruct r | exact IH].
Qed.

Lemma name_before_dot_found (p : string) (j i k : nat) :
  (i <= j < i + k)%nat ->
  substring j 1 p <> "."%string ->
  posixpath.name_before_dot p i k = true.
Proof.
  revert i. induction k as [|k IH]; intros i Hj Hc; [lia|].
  simpl. destruct (String.eqb_spec (substring i 1 p) ".") as [E | E];
    [|reflexivity].
  simpl. apply IH; [|exact Hc].
  destruct (Nat.eq_dec i j) as [-> | Hij]; [contradiction | lia].
Qed.

Lemma contains_app (c : ascii) (a b : string) :
  Py.contains c (a ++ b) = Py.contains c a || Py.contains c b.
Proof.
  induction a as [|x a IH]; simpl; [reflexivity|].
  now rewrite IH, orb_assoc.
Qed.

(** The extension of a path that ends in a proper file name, a dot and
    an extension free of dots and slashes. *)
Lemma splitext_extension (dir : string) (ch : ascii) (name ext : string) :
  ch <> "."%char ->
  Py.contains "/" (String ch name) = false ->
  Py.contains "." ext = false ->
  Py.contains "/" ext = false ->
  posixpath.splitext (dir ++ "/" ++ String ch name ++ "." ++ ext)
  = ((dir ++ "/" ++ String ch name)%string, ("." ++ ext)%string).
Proof.
  intros Hch Hname Hext Hext'.
  set (base := (dir ++ "/" ++ String ch name)%string).
  assert (Hp : (dir ++ "/" ++ String ch name ++ "." ++ ext)%string
               = (base ++ String "." ext)%string).
  { unfold base. now rewrite !append_assoc. }
  rewrite Hp. unfold posixpath.splitext.
  assert (Hdot : PyStr.rfind "." (base ++ String "." ext)
                 = Z.of_nat (String.length base))
    by now apply rfind_last.
  assert (Hsep : PyStr.rfind "/" (base ++ String "." ext)
                 = Z.of_nat (String.length dir)).
  { rewrite rfind_app_absent by exact Hext'.
    unfold base. change ("/" ++ String ch name)%string
      with (String "/" (String ch name)).
    now apply rfind_last. }
  assert (Hlen : String.length base = (String.length dir + 2 + String.length name)%nat).
  { unfold base. rewrite length_append. simpl. lia. }
  rewrite Hdot, Hsep, Nat2Z.id.
  replace (Z.of_nat (String.length dir) <? Z.of_nat (String.length base))
    with true by (symmetry; apply Z.ltb_lt; lia).
  rewrite (name_before_dot_found _ (S (String.length dir))).
  - simpl. now rewrite slice_to_app, slice_from_app.
  - lia.
  - replace (base ++ String "." ext)%string
      with ((dir ++ "/") ++ String ch (name ++ String "." ext))%string.
    + replace (S (String.length dir)) with (String.length (dir ++ "/")%string)
        by (rewrite length_append; simpl; lia).
      rewrite substring_at. intros E. injection E as E. contradiction.
    + unfold base. now rewrite !append_assoc.
Qed.

Lemma basename_of_file (dir name : string) :
  Py.contains "/" name = false ->
  posixpath.basename (dir ++ "/" ++ name) = name.
Proof.
  intros H. unfold posixpath.basename.
  change (dir ++ "/" ++ name)%string with (dir ++ String "/" name)%string.
  rewrite (rfind_last _ _ _ H).
  replace (Z.to_nat (Z.of_nat (String.length dir) + 1))
    with (String.length (dir ++ "/")%string)
    by (rewrite length_append; simpl; lia).
  replace (dir ++ String "/" name)%string with ((dir ++ "/") ++ name)%string
    by now rewrite append_assoc.
  apply slice_from_app.
Qed.

End PathFacts.

Lemma In_mem (x : string) (l : list string) :
  In x l -> PyStr.mem x l = true.
Proof.
  intros H. unfold PyStr.mem. apply existsb_exists. exists x.
  split; [exact H | apply String.eqb_refl].
Qed.

(** X18: in single mode, selecting a path made of a directory, a slash,
    a file name that does not start with a dot, a dot and an extension
    sets the input format to the lower-cased extension, provided the type
    tables know the path and the lower-cased extension is a supported
    input format; the label then shows the file name without its
    directory, and no box is shown. *)
Theorem selecting_file_detects_extension
    (guess_type : string -> option string) (s : Window.state)
    (dir : string) (ch : ascii) (name ext : string) (a : ascii) (t : string) :
  Window.bulk_conversion s = false ->
  guess_type (dir ++ "/" ++ String ch name ++ "." ++ ext) = Some (String a t) ->
  ch <> "."%char ->
  Py.contains "/" (String ch name) = false ->
  Py.contains "." ext = false ->
  Py.contains "/" ext = false ->
  In (Py.lower ext) FileConverter.SUPPORTED_INPUT_FORMATS ->
  Window.select_file guess_type s (dir ++ "/" ++ String ch name ++ "." ++ ext)
  = (Window.set_input_format (Py.lower ext)
       (Window.set_label (String ch name ++ "." ++ ext)
          (Window.set_input_file
             (Some (dir ++ "/" ++ String ch name ++ "." ++ ext)) s)),
     []).
Proof.
  intros Hbulk Hguess Hch Hname Hext Hext' Hin.
  set (path := dir ++ "/" ++ String ch name ++ "." ++ ext) in *.
  assert (Hne : (path =? "")%string = false).
  { apply String.eqb_neq. unfold path. destruct dir; discriminate. }
  assert (Hbase : posixpath.basename path = String ch name ++ "." ++ ext).
  { unfold path. apply basename_of_file.
    change (String ch name ++ "." ++ ext) with (String ch name ++ String "." ext).
    rewrite contains_app. rewrite Hname. simpl. exact Hext'. }
  unfold Window.select_file. rewrite Hbulk, Hne. cbn [negb].
  rewrite Hbase. unfold Window.detect_file_type.
  cbn [Window.input_file Window.set_label Window.set_input_file].
  rewrite Hguess.
  pose proof (splitext_extension dir ch name ext Hch Hname Hext Hext')
    as Hsplit.
  fold path in Hsplit. rewrite Hsplit.
  cbn [snd]. change (PyStr.slice_from 1 ("." ++ ext)) with ext.
  rewrite (In_mem _ _ Hin). reflexivity.
Qed.

Lemma selecting_file_detects_extension_witness :
  Window.select_file Demo.markdown Window.init "/d/Notes.MD"
  = (Window.set_input_format "md"
       (Window.set_label "Notes.MD"
          (Window.set_input_file (Some "/d/Notes.MD") Window.init)),
     []).
Proof.
  apply (selecting_file_detects_extension Demo.markdown Window.init
           "/d" "N" "otes" "MD" "t" "ext/markdown");
    first [reflexivity | discriminate | (right; right; left; reflexivity)].
Defined.

(** * The window after a bulk run *)

Lemma perform_all_app (l l' : list FileConverter.ui_action) (s : Window.state) :
  Window.perform_all s (l ++ l')
  = let (s1, out1) := Window.perform_all s l in
    let (s2, out2) := Window.perform_all s1 l' in
    (s2, (out1 ++ out2)%list).
Proof.
  revert s. induction l as [|a l IH]; intros s; simpl.
  - now destruct (Window.perform_all s l').
  - destruct (Window.perform s a) as [s1 out1]. rewrite IH.
    destruct (Window.perform_all s1 l) as [s2 out2].
    destruct (Window.perform_all s2 l') as [s3 out3].
    now rewrite app_assoc.
Qed.

Lemma last_nonempty_default {A} (x : A) (l : list A) (d d' : A) :
  last (x :: l) d = last (x :: l) d'.
Proof.
  revert x. induction l as [|y l IH]; intros x; [reflexivity|].
  change (last (x :: y :: l) d) with (last (y :: l) d).
  change (last (x :: y :: l) d') with (last (y :: l) d'). apply IH.
Qed.

Lemma perform_all_thread (l : list FileConverter.ui_action) (s : Window.state) :
  Window.thread (fst (Window.perform_all s l))
  = last (map Some (FileConverter.started l)) (Window.thread s).
Proof.
  revert s. induction l as [|a l IH]; intros s; [reflexivity|].
  simpl. destruct (Window.perform s a) as [s1 out1] eqn:E1.
  specialize (IH s1). destruct (Window.perform_all s1 l) as [s2 out2].
  simpl in IH |- *. rewrite IH.
  destruct a; simpl in E1; injection E1 as <- _; try reflexivity.
  simpl. destruct (map Some (FileConverter.started l)); [reflexivity|].
  apply last_nonempty_default.
Qed.

(** X19: once a directory is chosen, a bulk run leaves the bar at 100,
    whatever was found and however the conversions went, and the window
    keeps a reference to the last thread it started, if it started any. *)
Theorem bulk_run_leaves_bar_full (fs : dirtree) (s : Window.state)
    (dir : string) :
  Window.input_directory s = Some dir ->
  dir <> "" ->
  Window.progress_bar (fst (Window.convert_bulk_files fs s)) = 100%Z
  /\ Window.thread (fst (Window.convert_bulk_files fs s))
     = last (map Some (Window.started (snd (Window.convert_bulk_files fs s))))
         (Window.thread s).
Proof.
  intros Hdir Hne. unfold Window.convert_bulk_files. split.
  - unfold FileConverter.convert_bulk_files.
    cbn [Window.controller FileConverter.input_directory].
    rewrite Hdir. apply String.eqb_neq in Hne. rewrite Hne.
    change (FileConverter.SetValue 0 :: ?l ++ [FileConverter.SetValue 100])%list
      with ((FileConverter.SetValue 0 :: l) ++ [FileConverter.SetValue 100])%list.
    rewrite perform_all_app.
    destruct (Window.perform_all s _) as [s1 out1]. reflexivity.
  - rewrite started_perform_all. apply perform_all_thread.
Qed.

Lemma bulk_run_leaves_bar_full_witness :
  Window.progress_bar
    (fst (Window.convert_bulk_files Sample.abc
            (Window.set_input_directory (Some "/d") Demo.bulk_window)))
  = 100%Z
  /\ Window.thread
       (fst (Window.convert_bulk_files Sample.abc
               (Window.set_input_directory (Some "/d") Demo.bulk_window)))
     = last (map Some
               (Window.started
                  (snd (Window.convert_bulk_files Sample.abc
                          (Window.set_input_directory (Some "/d")
                             Demo.bulk_window)))))
         None.
Proof.
  apply (bulk_run_leaves_bar_full Sample.abc
           (Window.set_input_directory (Some "/d") Demo.bulk_window) "/d").
  - reflexivity.
  - discriminate.
Defined.

(** * One process per run, again *)

(** X20: a run asks for exactly one process, as its first action, and
    it waits for the end of a process exactly when one was launched. *)
Theorem run_asks_for_one_process (Signals : Z -> option string)
    (self : ConversionThread) (w : process_behaviour) :
  exists rest,
    trace (run Signals self w) = Popen (command self) :: rest
    /\ (forall c, ~ In (Popen c) rest)
    /\ (In Communicate rest <-> exists rc out err, w = Runs rc out err).
Proof.
  pose proof (run_waits_for_its_process Signals self w) as H.
  destruct w as [en se fn | rc out err].
  - destruct H as (rest & -> & Hc & Hp). exists rest.
    split; [reflexivity|]. split; [exact Hp|].
    split; [contradiction | intros (r & o & e & E); discriminate E].
  - destruct H as (rest & -> & Hp). eexists. split; [reflexivity|]. split.
    + intros c [E | [E | Hin]]; [discriminate E | discriminate E |].
      now apply (Hp c).
    + split; [eauto | intros _; right; left; reflexivity].
Qed.

(** * Conversions in flight *)





